(** * Dataset service of the mental-health backend: model and properties

    Shallow embedding of [backend/app/services/data_loader.py]: the loader
    [load_dataset], its three column-renaming routines and the three row
    filters, followed by the properties the specification states about them.

    Conventions of the model.
    - Python [str] values are Rocq strings. Identifiers, file names and
      column names are ASCII text in the repository, and the functions on
      them follow Python's on such text. A year given as text comes from
      the caller: there the string is read as UTF-8 and [int] knows the
      white space and the decimal digits of Unicode.
    - A call either returns a value or raises an exception: [outcome]. Its
      third case, [Unmodelled], marks the one path of pandas that is left
      out: selecting by a label that several columns carry.
    - A data frame is a list of column labels and a list of rows; a row
      keeps its index label, since boolean indexing preserves it. Cells are
      integers, strings or the missing value; the filters only read the
      columns [Code] (text) and [Year] (whole years), and integers compare
      exactly. *)

From Stdlib Require Import String Ascii List ZArith NArith Bool Lia Decimal
  DecimalString DecimalPos DecimalZ.
Import ListNotations.
Open Scope string_scope.
Open Scope Z_scope.

(** ** Outcomes of a call *)

Inductive exception : Type :=
| FileNotFoundError (subject : string)
| KeyError (key : string)
| ValueError
| TypeError
| EmptyDataError.

Inductive outcome (A : Type) : Type :=
| Returns (a : A)
| Raises (e : exception)
| Unmodelled.

Arguments Returns {A} a.
Arguments Raises {A} e.
Arguments Unmodelled {A}.

Definition bind {A B : Type} (m : outcome A) (k : A -> outcome B) : outcome B :=
  match m with
  | Returns a => k a
  | Raises e => Raises e
  | Unmodelled => Unmodelled
  end.

Notation "x <- m ;; k" := (bind m (fun x => k))
  (at level 61, m at next level, right associativity).

(** ** Python strings *)

Module Str.

(** [s.startswith(p)]. *)
Fixpoint startswith (s p : string) {struct p} : bool :=
  match p with
  | EmptyString => true
  | String a p' =>
      match s with
      | EmptyString => false
      | String b s' => (a =? b)%char && startswith s' p'
      end
  end.

(** [sub in s]: [sub] starts at some position of [s]. *)
Fixpoint contains (sub s : string) : bool :=
  match s with
  | EmptyString => startswith s sub
  | String _ s' => startswith s sub || contains sub s'
  end.

(** [s.endswith(suffix)]. *)
Fixpoint endswith (s suffix : string) : bool :=
  (s =? suffix)%string ||
  match s with
  | EmptyString => false
  | String _ s' => endswith s' suffix
  end.

(** [s.replace("", new)]: [new] goes before every character and at the end. *)
Fixpoint interleave (new s : string) : string :=
  match s with
  | EmptyString => new
  | String c s' => new ++ String c (interleave new s')
  end.

(** Left-to-right scan of [s.replace(old, new)] for a non-empty [old]:
    [skip] counts the characters of the occurrence just replaced that are
    still to be dropped, so that occurrences do not overlap. *)
Fixpoint replace_from (old new : string) (skip : nat) (s : string) : string :=
  match s with
  | EmptyString => EmptyString
  | String c s' =>
      match skip with
      | S k => replace_from old new k s'
      | O =>
          if startswith s old
          then new ++ replace_from old new (Nat.pred (String.length old)) s'
          else String c (replace_from old new O s')
      end
  end.

(** [s.replace(old, new)]. *)
Definition replace (old new s : string) : string :=
  match old with
  | EmptyString => interleave new s
  | String _ _ => replace_from old new O s
  end.

Definition is_upper (c : ascii) : bool :=
  let n := nat_of_ascii c in (65 <=? n)%nat && (n <=? 90)%nat.

Definition is_lower (c : ascii) : bool :=
  let n := nat_of_ascii c in (97 <=? n)%nat && (n <=? 122)%nat.

(** A cased character of ASCII is a letter. *)
Definition is_cased (c : ascii) : bool := is_upper c || is_lower c.

Definition to_lower (c : ascii) : ascii :=
  if is_upper c then ascii_of_nat (nat_of_ascii c + 32) else c.

(** Upper case, which is also the title case of an ASCII character. *)
Definition to_upper (c : ascii) : ascii :=
  if is_lower c then ascii_of_nat (nat_of_ascii c - 32) else c.

(** [s.lower()]. *)
Fixpoint lower (s : string) : string :=
  match s with
  | EmptyString => EmptyString
  | String c s' => String (to_lower c) (lower s')
  end.

(** The loop of [s.title()]: a character that follows a cased character is
    lowered, any other is put in title case. *)
Fixpoint title_from (previous_is_cased : bool) (s : string) : string :=
  match s with
  | EmptyString => EmptyString
  | String c s' =>
      String (if previous_is_cased then to_lower c else to_upper c)
             (title_from (is_cased c) s')
  end.

(** [s.title()]. *)
Definition title (s : string) : string := title_from false s.

End Str.

(** ** Characters of a Python string *)

(** A Python [str] is a sequence of code points; a Rocq string carries it
    in UTF-8, the encoding of this file, so that a literal written here is
    the Python literal. *)
Module Utf8.

Definition byte (c : ascii) : N := N_of_ascii c.

(** A continuation byte, [10xxxxxx]. *)
Definition is_cont (b : N) : bool := (128 <=? b)%N && (b <=? 191)%N.

(** The code points of a text. A well-formed sequence of two, three or four
    bytes is one code point (shortest form only, no surrogate, nothing above
    U+10FFFF); a byte below 128 is itself; any other byte, which no
    well-formed text holds, is read as the code point of its own value. *)
Fixpoint code_points (s : string) : list N :=
  match s with
  | EmptyString => []
  | String c1 s1 =>
      let b1 := byte c1 in
      if (b1 <? 128)%N then b1 :: code_points s1
      else
        match s1 with
        | String c2 s2 =>
            let b2 := byte c2 in
            if (194 <=? b1)%N && (b1 <=? 223)%N && is_cont b2
            then ((b1 - 192) * 64 + (b2 - 128))%N :: code_points s2
            else
              match s2 with
              | String c3 s3 =>
                  let b3 := byte c3 in
                  let cp3 := ((b1 - 224) * 4096 + (b2 - 128) * 64 + (b3 - 128))%N in
                  if (224 <=? b1)%N && (b1 <=? 239)%N && is_cont b2 && is_cont b3
                     && (2048 <=? cp3)%N && negb ((55296 <=? cp3)%N && (cp3 <=? 57343)%N)
                  then cp3 :: code_points s3
                  else
                    match s3 with
                    | String c4 s4 =>
                        let b4 := byte c4 in
                        let cp4 := ((b1 - 240) * 262144 + (b2 - 128) * 4096
                                    + (b3 - 128) * 64 + (b4 - 128))%N in
                        if (240 <=? b1)%N && (b1 <=? 244)%N
                           && is_cont b2 && is_cont b3 && is_cont b4
                           && (65536 <=? cp4)%N && (cp4 <=? 1114111)%N
                        then cp4 :: code_points s4
                        else b1 :: code_points s1
                    | EmptyString => b1 :: code_points s1
                    end
              | EmptyString => b1 :: code_points s1
              end
        | EmptyString => b1 :: code_points s1
        end
  end.

(** Every byte of the text is below 127: plain ASCII without DEL. *)
Fixpoint plain (s : string) : bool :=
  match s with
  | EmptyString => true
  | String c s' => (byte c <? 127)%N && plain s'
  end.

End Utf8.

(** ** Python integers and text *)

Module PyInt.

(** [Py_ISSPACE], the white space the reader of ASCII text skips around a
    number: tab, line feed, vertical tab, form feed, carriage return and
    space. *)
Definition is_space (c : ascii) : bool :=
  let n := nat_of_ascii c in ((9 <=? n)%nat && (n <=? 13)%nat) || (n =? 32)%nat.

Fixpoint lstrip (s : string) : string :=
  match s with
  | EmptyString => EmptyString
  | String c s' => if is_space c then lstrip s' else s
  end.

Fixpoint all_space (s : string) : bool :=
  match s with
  | EmptyString => true
  | String c s' => is_space c && all_space s'
  end.

Definition digit_of (c : ascii) : option (uint -> uint) :=
  match c with
  | "0"%char => Some D0 | "1"%char => Some D1 | "2"%char => Some D2
  | "3"%char => Some D3 | "4"%char => Some D4 | "5"%char => Some D5
  | "6"%char => Some D6 | "7"%char => Some D7 | "8"%char => Some D8
  | "9"%char => Some D9
  | _ => None
  end.

(** The digits of the number: a digit, then digits each optionally preceded
    by one underscore. [need] says that a digit must come next (at the start
    and after an underscore). Returns the digits read and the text left. *)
Fixpoint scan_digits (need : bool) (s : string) : option (uint * string) :=
  match s with
  | EmptyString => if need then None else Some (Nil, EmptyString)
  | String c s' =>
      match digit_of c with
      | Some D =>
          match scan_digits false s' with
          | Some (d, rest) => Some (D d, rest)
          | None => None
          end
      | None =>
          if need then None
          else if (c =? "_")%char then scan_digits true s'
          else Some (Nil, s)
      end
  end.

(** [int(s)] for a string [s]: white space, an optional sign, the digits,
    white space; anything else raises [ValueError]. The text is first
    brought to ASCII, then read. The interpreter's configurable cap on the
    number of digits is not part of the model. *)
Definition unsigned_of_str (negative : bool) (s : string) : outcome Z :=
  match scan_digits true s with
  | Some (d, rest) =>
      if all_space rest
      then Returns (if negative then - Z.of_uint d else Z.of_uint d)
      else Raises ValueError
  | None => Raises ValueError
  end.

Definition signed_of_str (s : string) : outcome Z :=
  match s with
  | EmptyString => Raises ValueError
  | String c r =>
      if (c =? "-")%char then unsigned_of_str true r
      else if (c =? "+")%char then unsigned_of_str false r
      else unsigned_of_str false s
  end.

(** [PyLong_FromString] in base 10: the reader of the ASCII text. *)
Definition from_ascii (t : string) : outcome Z := signed_of_str (lstrip t).

(** [Py_UNICODE_ISSPACE]: the white-space characters of Unicode. *)
Definition unicode_space (cp : N) : bool :=
  existsb (N.eqb cp)
    [ 9; 10; 11; 12; 13; 28; 29; 30; 31; 32; 133; 160; 5760;
      8192; 8193; 8194; 8195; 8196; 8197; 8198; 8199; 8200; 8201; 8202;
      8232; 8233; 8239; 8287; 12288 ]%N.

(** The zeros of the decimal digits of Unicode 14, the version of the
    interpreter: each is followed by the digits one to nine of its script. *)
Definition decimal_zeros : list N :=
  [ 48; 1632; 1776; 1984; 2406; 2534; 2662; 2790; 2918; 3046;
    3174; 3302; 3430; 3558; 3664; 3792; 3872; 4160; 4240; 6112;
    6160; 6470; 6608; 6784; 6800; 6992; 7088; 7232; 7248; 42528;
    43216; 43264; 43472; 43504; 43600; 44016; 65296; 66720; 68912; 69734;
    69872; 69942; 70096; 70384; 70736; 70864; 71248; 71360; 71472; 71904;
    72016; 72784; 73040; 73120; 92768; 92864; 93008; 120782; 120792; 120802;
    120812; 120822; 123200; 123632; 125264; 130032 ]%N.

Fixpoint find_run (zeros : list N) (cp : N) : option N :=
  match zeros with
  | [] => None
  | z :: zeros' =>
      if (z <=? cp)%N && (cp <? z + 10)%N then Some (cp - z)%N else find_run zeros' cp
  end.

(** [Py_UNICODE_TODECIMAL]: the value of a decimal digit, of any script. *)
Definition decimal_value (cp : N) : option N := find_run decimal_zeros cp.

Definition digit_char (v : N) : ascii := ascii_of_N (48 + v).

(** [_PyUnicode_TransformDecimalAndSpaceToASCII]: a character below 127 is
    kept, any other white space becomes a space and any other decimal digit
    its ASCII digit; at the first character that is none of these the text
    ends with a question mark. *)
Fixpoint to_ascii (cps : list N) : string :=
  match cps with
  | [] => EmptyString
  | cp :: cps' =>
      if (cp <? 127)%N then String (ascii_of_N cp) (to_ascii cps')
      else if unicode_space cp then String " " (to_ascii cps')
      else
        match decimal_value cp with
        | Some v => String (digit_char v) (to_ascii cps')
        | None => "?"
        end
  end.

Definition int_of_str (s : string) : outcome Z :=
  from_ascii (to_ascii (Utf8.code_points s)).

(** [str(z)] for an integer [z]. *)
Definition str_of_int (z : Z) : string := NilZero.string_of_int (Z.to_int z).

End PyInt.

(** ** Data frames *)

Inductive value : Type :=
| VInt (z : Z)
| VStr (s : string)
| VNaN.

(** A row with its index label. *)
Record row : Type := { label : Z; cells : list value }.

Record DataFrame : Type := { columns : list string; rows : list row }.

(** A dict with string keys, as an association list; [assoc] is the lookup. *)
Fixpoint assoc {A : Type} (k : string) (d : list (string * A)) : option A :=
  match d with
  | [] => None
  | (k', a) :: d' => if (k =? k')%string then Some a else assoc k d'
  end.

Definition keys {A : Type} (d : list (string * A)) : list string := map fst d.

Module Frame.

(** Positions, counted from [j], of the columns that carry label [l]. *)
Fixpoint positions (l : string) (cols : list string) (j : nat) : list nat :=
  match cols with
  | [] => []
  | c :: cols' =>
      if (c =? l)%string then j :: positions l cols' (S j) else positions l cols' (S j)
  end.

Definition cell (j : nat) (r : row) : value := nth j (cells r) VNaN.

(** [df[l]] for a label [l]: [KeyError] when no column carries it, the
    series of its cells when one column does. When several columns carry the
    label pandas selects a sub-frame and the filters below turn into a
    cell-wise masking; this development does not follow that path. *)
Definition getitem (df : DataFrame) (l : string) : outcome (list value) :=
  match positions l (columns df) 0 with
  | [] => Raises (KeyError l)
  | [j] => Returns (map (cell j) (rows df))
  | _ :: _ :: _ => Unmodelled
  end.

Definition value_in (values : list string) (v : value) : bool :=
  match v with
  | VStr s => existsb (String.eqb s) values
  | VInt _ | VNaN => false
  end.

(** [s.isin(values)]. *)
Definition isin (s : list value) (values : list string) : list bool :=
  map (value_in values) s.

Definition value_eq (y : Z) (v : value) : bool :=
  match v with
  | VInt z => z =? y
  | VStr _ | VNaN => false
  end.

(** [s == y] for an integer [y]. *)
Definition eq_scalar (s : list value) (y : Z) : list bool := map (value_eq y) s.

(** [v >= y]: text does not compare with a number. *)
Definition value_ge (y : Z) (v : value) : outcome bool :=
  match v with
  | VInt z => Returns (y <=? z)
  | VNaN => Returns false
  | VStr _ => Raises TypeError
  end.

(** [s >= y] for an integer [y]. *)
Fixpoint ge_scalar (s : list value) (y : Z) : outcome (list bool) :=
  match s with
  | [] => Returns []
  | v :: s' =>
      b <- value_ge y v ;;
      bs <- ge_scalar s' y ;;
      Returns (b :: bs)
  end.

Fixpoint select {A : Type} (xs : list A) (mask : list bool) : list A :=
  match xs, mask with
  | x :: xs', b :: mask' => if b then x :: select xs' mask' else select xs' mask'
  | _, _ => []
  end.

(** [df[mask]] for a boolean series computed from [df] itself. *)
Definition getitem_mask (df : DataFrame) (mask : list bool) : DataFrame :=
  {| columns := columns df; rows := select (rows df) mask |}.

Definition rename_label (mapper : list (string * string)) (c : string) : string :=
  match assoc c mapper with
  | Some c' => c'
  | None => c
  end.

(** [df.rename(columns=mapper)]. *)
Definition rename (df : DataFrame) (mapper : list (string * string)) : DataFrame :=
  {| columns := map (rename_label mapper) (columns df); rows := rows df |}.

End Frame.

(** ** The loader *)

(** What the loader sees of its environment: where the repository lives,
    which paths exist, and what the CSV reader answers for a path. *)
Record World : Type := {
  repo_root : string;
  path_exists : string -> bool;
  read_csv : string -> outcome DataFrame
}.

Definition DATA_DIR (w : World) : string := repo_root w ++ "/data/raw".

Definition dataset_mapping : list (string * string) :=
  [ ("mental-illnesses-prevalence", "1- mental-illnesses-prevalence.csv");
    ("burden-disease-mental-illness", "2- burden-disease-from-each-mental-illness(1).csv");
    ("depression-prevalence-coverage",
     "3- adult-population-covered-in-primary-data-on-the-prevalence-of-major-depression.csv");
    ("mental-illnesses-coverage",
     "4- adult-population-covered-in-primary-data-on-the-prevalence-of-mental-illnesses.csv");
    ("anxiety-treatment-gap", "5- anxiety-disorders-treatment-gap.csv");
    ("us-depressive-symptoms", "6- depressive-symptoms-across-us-population.csv");
    ("countries-with-data",
     "7- number-of-countries-with-primary-data-on-prevalence-of-mental-illnesses-in-the-global-burden-of-disease-study.csv") ].

Definition prevalence_marker : string := "disorderssharepopulation".

Definition prevalence_name (col : string) : string :=
  Str.title (Str.replace prevalence_marker "" col).

Definition process_prevalence_data (df : DataFrame) : DataFrame :=
  let column_mapping :=
    map (fun col => (col, prevalence_name col))
        (filter (Str.contains prevalence_marker) (columns df)) in
  Frame.rename df column_mapping.

Definition burden_marker : string := "DALYsrateSexBothAgeAgestandardizedCause".

Definition burden_name (col : string) : string :=
  Str.title (Str.replace burden_marker "" col) ++ "DALYs".

Definition process_burden_data (df : DataFrame) : DataFrame :=
  let column_mapping :=
    map (fun col => (col, burden_name col))
        (filter (Str.contains burden_marker) (columns df)) in
  Frame.rename df column_mapping.

Definition treatment_gap_mapping : list (string * string) :=
  [ ("Potentiallyadequatetreatmentconditional", "AdequateTreatment");
    ("Othertreatmentsconditional", "OtherTreatments");
    ("Untreatedconditional", "Untreated") ].

Definition process_treatment_gap_data (df : DataFrame) : DataFrame :=
  Frame.rename df treatment_gap_mapping.

Definition load_dataset (w : World) (dataset_id : string) : outcome DataFrame :=
  match assoc dataset_id dataset_mapping with
  | None => Raises (FileNotFoundError dataset_id)
  | Some name =>
      let file_path := DATA_DIR w ++ "/" ++ name in
      if negb (path_exists w file_path) then Raises (FileNotFoundError file_path)
      else
        df <- read_csv w file_path ;;
        if (dataset_id =? "mental-illnesses-prevalence")%string
        then Returns (process_prevalence_data df)
        else if (dataset_id =? "burden-disease-mental-illness")%string
        then Returns (process_burden_data df)
        else if (dataset_id =? "anxiety-treatment-gap")%string
        then Returns (process_treatment_gap_data df)
        else Returns df
  end.

(** ** The filters *)

Definition region_codes : list (string * list string) :=
  [ ("americas", ["USA"; "CAN"; "MEX"; "BRA"; "ARG"; "COL"; "PER"; "CHL"; "VEN"; "ECU"]);
    ("europe", ["GBR"; "FRA"; "DEU"; "ITA"; "ESP"; "PRT"; "NLD"; "BEL"; "CHE"; "AUT"]);
    ("asia", ["CHN"; "JPN"; "IND"; "IDN"; "PAK"; "BGD"; "PHL"; "VNM"; "THA"; "MYS"]);
    ("africa", ["ZAF"; "NGA"; "EGY"; "DZA"; "MAR"; "TUN"; "LBY"; "SDN"; "ETH"; "KEN"]);
    ("oceania", ["AUS"; "NZL"; "PNG"; "FJI"; "SLB"; "VUT"; "WSM"; "TON"; "KIR"; "FSM"]) ].

Definition filter_by_region (df : DataFrame) (region : string) : outcome DataFrame :=
  if (region =? "global")%string then Returns df
  else
    match assoc region region_codes with
    | None => Returns df
    | Some codes =>
        code <- Frame.getitem df "Code" ;;
        Returns (Frame.getitem_mask df (Frame.isin code codes))
    end.

(** The [year] argument, [Union[int, str]]. *)
Inductive year_arg : Type :=
| YInt (y : Z)
| YStr (s : string).

Definition filter_by_year (df : DataFrame) (year : year_arg) : outcome DataFrame :=
  year_num <- match year with
              | YStr s => PyInt.int_of_str s
              | YInt y => Returns y
              end ;;
  col <- Frame.getitem df "Year" ;;
  Returns (Frame.getitem_mask df (Frame.eq_scalar col year_num)).

Definition current_year : Z := 2023.

Definition filter_by_period (df : DataFrame) (period : string) : outcome DataFrame :=
  if (period =? "all")%string then Returns df
  else if (period =? "recent")%string then
    col <- Frame.getitem df "Year" ;;
    mask <- Frame.ge_scalar col (current_year - 5) ;;
    Returns (Frame.getitem_mask df mask)
  else if (period =? "decade")%string then
    col <- Frame.getitem df "Year" ;;
    mask <- Frame.ge_scalar col (current_year - 10) ;;
    Returns (Frame.getitem_mask df mask)
  else Returns df.

(** ** Notions used to state the properties *)

(** [df] has exactly one column labelled [l], and it is the [j]-th. *)
Definition column_at (df : DataFrame) (l : string) (j : nat) : Prop :=
  Frame.positions l (columns df) 0 = [j].

(** No cell of the [j]-th column is text. *)
Definition numeric_column (df : DataFrame) (j : nat) : Prop :=
  Forall (fun r => forall s, Frame.cell j r <> VStr s) (rows df).

(** The cell is a number not below [y]. *)
Definition at_least (y : Z) (v : value) : bool :=
  match v with
  | VInt z => y <=? z
  | VStr _ | VNaN => false
  end.

(** The rows of [df] that satisfy [keep], under the columns of [df]. *)
Definition rows_where (keep : row -> bool) (df : DataFrame) : DataFrame :=
  {| columns := columns df; rows := filter keep (rows df) |}.

(** [xs] is [ys] with some elements left out, the others in their order. *)
Inductive Subseq {A : Type} : list A -> list A -> Prop :=
| Subseq_nil : Subseq [] []
| Subseq_skip x xs ys : Subseq xs ys -> Subseq xs (x :: ys)
| Subseq_keep x xs ys : Subseq xs ys -> Subseq (x :: xs) (x :: ys).

(** The rename a dataset identifier selects after loading. *)
Definition transform_of (dataset_id : string) (df : DataFrame) : DataFrame :=
  if (dataset_id =? "mental-illnesses-prevalence")%string then process_prevalence_data df
  else if (dataset_id =? "burden-disease-mental-illness")%string then process_burden_data df
  else if (dataset_id =? "anxiety-treatment-gap")%string then process_treatment_gap_data df
  else df.

(** The new name of a column under the treatment-gap transform. *)
Definition treatment_gap_name (col : string) : string :=
  if (col =? "Potentiallyadequatetreatmentconditional")%string then "AdequateTreatment"
  else if (col =? "Othertreatmentsconditional")%string then "OtherTreatments"
  else if (col =? "Untreatedconditional")%string then "Untreated"
  else col.

(** What the specification's words on column names mean, stated without
    the scanning loops of the string functions. *)
Module Words.


(** [s] ends in [suffix]. *)
Definition ends_in (suffix s : string) : Prop := exists a, s = a ++ suffix.










End Words.

(** Integer literals, as a grammar: white space, an optional sign, digits
    with single underscores allowed between them, white space. The grammar
    is given twice: on ASCII text, and on the characters of any text, where
    white space and digits are those of Unicode. *)
Module Literal.

Definition is_digit (c : ascii) : bool :=
  let n := nat_of_ascii c in (48 <=? n)%nat && (n <=? 57)%nat.

Inductive spaces : string -> Prop :=
| spaces_nil : spaces EmptyString
| spaces_cons c s : PyInt.is_space c = true -> spaces s -> spaces (String c s).

(** Digits up to the end of the text, trailing white space included. *)
Inductive digits : string -> Prop :=
| digits_last c s : is_digit c = true -> spaces s -> digits (String c s)
| digits_next c s : is_digit c = true -> digits s -> digits (String c s)
| digits_underscore c s :
    is_digit c = true -> digits s -> digits (String c (String "_"%char s)).

Inductive signed : string -> Prop :=
| signed_none s : digits s -> signed s
| signed_plus s : digits s -> signed (String "+"%char s)
| signed_minus s : digits s -> signed (String "-"%char s).

Inductive ascii_literal : string -> Prop :=
| literal_space c s : PyInt.is_space c = true -> ascii_literal s -> ascii_literal (String c s)
| literal_signed s : signed s -> ascii_literal s.

(** White space around a number: the six of ASCII, next line, no-break
    space, ogham space mark, the spaces U+2000 to U+200A, line and paragraph
    separator, narrow no-break space, medium mathematical space and
    ideographic space. *)
Definition white_space (cp : N) : bool :=
  existsb (N.eqb cp)
    [ 9; 10; 11; 12; 13; 32; 133; 160; 5760;
      8192; 8193; 8194; 8195; 8196; 8197; 8198; 8199; 8200; 8201; 8202;
      8232; 8233; 8239; 8287; 12288 ]%N.

(** A decimal digit of any script. *)
Definition decimal_digit (cp : N) : bool :=
  match PyInt.decimal_value cp with
  | Some _ => true
  | None => false
  end.

Inductive Spaces : list N -> Prop :=
| Spaces_nil : Spaces []
| Spaces_cons cp t : white_space cp = true -> Spaces t -> Spaces (cp :: t).

Inductive Digits : list N -> Prop :=
| Digits_last cp t : decimal_digit cp = true -> Spaces t -> Digits (cp :: t)
| Digits_next cp t : decimal_digit cp = true -> Digits t -> Digits (cp :: t)
| Digits_underscore cp t :
    decimal_digit cp = true -> Digits t -> Digits (cp :: 95%N :: t).

Inductive Signed : list N -> Prop :=
| Signed_none t : Digits t -> Signed t
| Signed_plus t : Digits t -> Signed (43%N :: t)
| Signed_minus t : Digits t -> Signed (45%N :: t).

Inductive Text : list N -> Prop :=
| Text_space cp t : white_space cp = true -> Text t -> Text (cp :: t)
| Text_signed t : Signed t -> Text t.

(** The text is an integer literal. *)
Definition int_literal (s : string) : Prop := Text (Utf8.code_points s).

End Literal.

(** Sample frames and worlds for the concrete runs below. *)

Definition brazil_2015 : row :=
  {| label := 0; cells := [VStr "Brazil"; VStr "BRA"; VInt 2015; VInt 41] |}.
Definition france_2020 : row :=
  {| label := 1; cells := [VStr "France"; VStr "FRA"; VInt 2020; VInt 37] |}.
Definition africa_2018 : row :=
  {| label := 2; cells := [VStr "Africa"; VNaN; VInt 2018; VInt 52] |}.
Definition chile_2020 : row :=
  {| label := 3; cells := [VStr "Chile"; VStr "CHL"; VInt 2020; VInt 33] |}.

Definition sample_columns : list string :=
  ["Entity"; "Code"; "Year"; "Untreatedconditional"].

Definition sample_frame : DataFrame :=
  {| columns := sample_columns;
     rows := [brazil_2015; france_2020; africa_2018; chile_2020] |}.

(** Frames with column names as the prevalence and burden files have them. *)
Definition prevalence_frame : DataFrame :=
  {| columns := ["Entity"; "Code"; "Year"; "Anxietydisorderssharepopulation";
                 "Eatingdisorderssharepopulation"];
     rows := [ {| label := 0; cells := [VStr "Peru"; VStr "PER"; VInt 2019; VInt 4; VInt 1] |} ] |}.

Definition burden_frame : DataFrame :=
  {| columns := ["Entity"; "Code"; "Year";
                 "DALYsrateSexBothAgeAgestandardizedCauseDepressivedisorders"];
     rows := [ {| label := 0; cells := [VStr "Peru"; VStr "PER"; VInt 2019; VInt 612] |} ] |}.


(** A frame with a column whose name holds the prevalence marker twice,
    once in capitals. *)
Definition shouting_frame : DataFrame :=
  {| columns := ["Entity"; "XDISORDERSSHAREPOPULATIONdisorderssharepopulation"];
     rows := [ {| label := 0; cells := [VStr "World"; VInt 4] |} ] |}.

(** A world in which every path exists and every file is empty: the CSV
    reader finds no columns to parse. *)
Definition empty_files_world : World :=
  {| repo_root := "/srv/app";
     path_exists := fun _ => true;
     read_csv := fun _ => Raises EmptyDataError |}.

(** A world in which every path exists and holds [sample_frame]. *)
Definition sample_world : World :=
  {| repo_root := "/srv/app";
     path_exists := fun _ => true;
     read_csv := fun _ => Returns sample_frame |}.

(** ** Notions used to state how the operations compose *)

(** [df] with every column label passed through [f]. *)
Definition relabel (f : string -> string) (df : DataFrame) : DataFrame :=
  {| columns := map f (columns df); rows := rows df |}.

(** The new label of a column under the burden transform. *)
Definition burden_label (c : string) : string :=
  if Str.contains burden_marker c then burden_name c else c.

(** The new label of a column under the prevalence transform. *)
Definition prevalence_label (c : string) : string :=
  if Str.contains prevalence_marker c then prevalence_name c else c.

(** The cell is text. *)
Definition is_text (v : value) : bool :=
  match v with
  | VStr _ => true
  | VInt _ | VNaN => false
  end.

(** The two lists of codes share no code. *)
Definition disjointb (xs ys : list string) : bool :=
  forallb (fun x => negb (existsb (String.eqb x) ys)) xs.

(** [df] without its rows. *)
Definition no_rows (df : DataFrame) : DataFrame :=
  {| columns := columns df; rows := [] |}.

(** The years a [year] argument stands for: the integer itself, or what
    [int] reads in the text. *)
Definition year_number (year : year_arg) : outcome Z :=
  match year with
  | YStr s => PyInt.int_of_str s
  | YInt y => Returns y
  end.

(** A frame whose Year column holds a text cell. *)
Definition text_year_frame : DataFrame :=
  {| columns := ["Code"; "Year"];
     rows := [ {| label := 0; cells := [VStr "BRA"; VInt 2020] |};
               {| label := 1; cells := [VStr "OWID_WRL"; VStr "n/a"] |} ] |}.

(** The sample frame before any row was read. *)
Definition empty_frame : DataFrame := {| columns := sample_columns; rows := [] |}.

(** * Properties *)

(** ** Sample runs of the string and integer functions *)

Example contains_ex : Str.contains "ab" "xxabyy" = true /\ Str.contains "ab" "xxayb" = false.
Proof. split; reflexivity. Qed.

Example replace_ex :
  Str.replace "aa" "" "aaa" = "a" /\ Str.replace "aba" "" "ababa" = "ba"
  /\ Str.replace "" "" "abc" = "abc".
Proof. repeat split; reflexivity. Qed.

Example title_ex :
  Str.title "hello world" = "Hello World" /\ Str.title "a1b2" = "A1B2"
  /\ Str.title "aBC" = "Abc" /\ Str.title "3rd" = "3Rd" /\ Str.title "_ab" = "_Ab".
Proof. repeat split; reflexivity. Qed.

Example int_of_str_ex :
  PyInt.int_of_str " 1 " = Returns 1 /\ PyInt.int_of_str "-5" = Returns (-5)
  /\ PyInt.int_of_str "1_0" = Returns 10 /\ PyInt.int_of_str "0020" = Returns 20
  /\ PyInt.int_of_str "- 5" = Raises ValueError
  /\ PyInt.int_of_str "1__0" = Raises ValueError
  /\ PyInt.int_of_str "1_" = Raises ValueError
  /\ PyInt.int_of_str "_1" = Raises ValueError
  /\ PyInt.int_of_str "" = Raises ValueError
  /\ PyInt.int_of_str "2020.0" = Raises ValueError
  /\ PyInt.int_of_str "1 2" = Raises ValueError.
Proof. repeat split; reflexivity. Qed.

Example str_of_int_ex :
  PyInt.str_of_int (-5) = "-5" /\ PyInt.str_of_int 0 = "0" /\ PyInt.str_of_int 1000 = "1000".
Proof. repeat split; reflexivity. Qed.

(** ** Facts about the string functions *)

Section StringFacts.

Lemma to_lower_idempotent c : Str.to_lower (Str.to_lower c) = Str.to_lower c.
Proof. destruct c as [[] [] [] [] [] [] [] []]; reflexivity. Qed.

Lemma to_lower_to_upper c : Str.to_lower (Str.to_upper c) = Str.to_lower c.
Proof. destruct c as [[] [] [] [] [] [] [] []]; reflexivity. Qed.

Lemma lower_title_from b s : Str.lower (Str.title_from b s) = Str.lower s.
Proof.
  revert b; induction s as [|c s IH]; intros b; simpl; [reflexivity|].
  rewrite IH. f_equal.
  destruct b; [apply to_lower_idempotent | apply to_lower_to_upper].
Qed.

Lemma lower_title s : Str.lower (Str.title s) = Str.lower s.
Proof. apply lower_title_from. Qed.

Lemma startswith_lower s p :
  Str.startswith s p = true -> Str.startswith (Str.lower s) (Str.lower p) = true.
Proof.
  revert s; induction p as [|a p IH]; intros s H; simpl; [reflexivity|].
  destruct s as [|b s]; simpl in *; [discriminate|].
  apply andb_true_iff in H. destruct H as [Hab Hs].
  apply Ascii.eqb_eq in Hab. subst b.
  rewrite Ascii.eqb_refl. simpl. auto.
Qed.

Lemma contains_lower a b :
  Str.contains a b = true -> Str.contains (Str.lower a) (Str.lower b) = true.
Proof.
  induction b as [|y b IH]; intros H.
  - apply (startswith_lower EmptyString a) in H. exact H.
  - change (Str.startswith (String y b) a || Str.contains a b = true) in H.
    change (Str.startswith (Str.lower (String y b)) (Str.lower a)
            || Str.contains (Str.lower a) (Str.lower b) = true).
    apply orb_true_iff in H. apply orb_true_iff.
    destruct H as [H|H]; [left; apply startswith_lower; exact H | right; auto].
Qed.

Lemma endswith_refl s : Str.endswith s s = true.
Proof. destruct s; simpl; rewrite ?String.eqb_refl, ?Ascii.eqb_refl; reflexivity. Qed.

Lemma endswith_app a b : Str.endswith (a ++ b) b = true.
Proof.
  induction a as [|x a IH]; [apply endswith_refl|].
  change (((String x (a ++ b)) =? b)%string || Str.endswith (a ++ b) b = true).
  rewrite IH. apply orb_true_r.
Qed.

End StringFacts.

(** ** Dicts *)

Lemma assoc_Some_key {A : Type} (k : string) (d : list (string * A)) (a : A) :
  assoc k d = Some a -> In k (keys d).
Proof.
  induction d as [|[k' a'] d IH]; simpl; [discriminate|].
  destruct (String.eqb_spec k k') as [->|_]; [left; reflexivity | right; auto].
Qed.

Lemma assoc_None_key {A : Type} (k : string) (d : list (string * A)) :
  assoc k d = None <-> ~ In k (keys d).
Proof.
  induction d as [|[k' a'] d IH]; simpl; [tauto|].
  destruct (String.eqb_spec k k') as [->|Hne].
  - split; [discriminate | intros H; exfalso; apply H; left; reflexivity].
  - rewrite IH. split; [intros H [E|E]; [congruence | auto] | tauto].
Qed.

(** ** The rename transforms *)

Section Renaming.

Variable marked : string -> bool.
Variable new_name : string -> string.

(** The dict comprehension [{col: new_name(col) for col in cols if marked(col)}]. *)
Let comprehension (cols : list string) : list (string * string) :=
  map (fun col => (col, new_name col)) (filter marked cols).

Lemma assoc_comprehension cols c :
  assoc c (comprehension cols) =
  if marked c && existsb (String.eqb c) cols then Some (new_name c) else None.
Proof.
  unfold comprehension.
  induction cols as [|a cols IH]; simpl.
  - rewrite andb_false_r. reflexivity.
  - destruct (String.eqb_spec c a) as [->|Hne].
    + destruct (marked a) eqn:Ha; simpl.
      * rewrite String.eqb_refl. reflexivity.
      * rewrite IH. reflexivity.
    + destruct (marked a) eqn:Ha; simpl.
      * destruct (String.eqb_spec c a); [contradiction | exact IH].
      * exact IH.
Qed.

Lemma rename_comprehension (df : DataFrame) :
  Frame.rename df (comprehension (columns df)) =
  {| columns := map (fun c => if marked c then new_name c else c) (columns df);
     rows := rows df |}.
Proof.
  unfold Frame.rename. f_equal.
  apply map_ext_in. intros c Hc.
  unfold Frame.rename_label. rewrite assoc_comprehension.
  destruct (marked c); simpl; [|reflexivity].
  replace (existsb (String.eqb c) (columns df)) with true; [reflexivity|].
  symmetry. apply existsb_exists. exists c. split; [exact Hc | apply String.eqb_refl].
Qed.

End Renaming.

Lemma process_prevalence_data_eq (df : DataFrame) :
  process_prevalence_data df =
  {| columns := map (fun c => if Str.contains prevalence_marker c
                              then prevalence_name c else c) (columns df);
     rows := rows df |}.
Proof. apply (rename_comprehension (Str.contains prevalence_marker) prevalence_name). Qed.

Lemma process_burden_data_eq (df : DataFrame) :
  process_burden_data df =
  {| columns := map (fun c => if Str.contains burden_marker c
                              then burden_name c else c) (columns df);
     rows := rows df |}.
Proof. apply (rename_comprehension (Str.contains burden_marker) burden_name). Qed.

(** C2, as the code has it. The prevalence transform keeps the rows, gives
    every column whose name contains "disorderssharepopulation" the name
    obtained by stripping that substring and title-casing the remainder, and
    leaves every other column name unchanged. A column name of the result
    contains the substring only if it is such a new name and the stripped
    remainder it was made from still contains the substring when letter case
    is ignored. *)
Theorem prevalence_transform_renames (df : DataFrame) :
  rows (process_prevalence_data df) = rows df
  /\ columns (process_prevalence_data df) =
     map (fun c => if Str.contains "disorderssharepopulation" c
                   then Str.title (Str.replace "disorderssharepopulation" "" c)
                   else c) (columns df)
  /\ forall c', In c' (columns (process_prevalence_data df)) ->
       Str.contains "disorderssharepopulation" c' = true ->
       exists c, In c (columns df)
         /\ Str.contains "disorderssharepopulation" c = true
         /\ c' = Str.title (Str.replace "disorderssharepopulation" "" c)
         /\ Str.contains "disorderssharepopulation"
              (Str.lower (Str.replace "disorderssharepopulation" "" c)) = true.
Proof.
  rewrite process_prevalence_data_eq. cbn [rows columns].
  split; [reflexivity|]. split; [reflexivity|].
  intros c' Hin Hc'.
  apply in_map_iff in Hin. destruct Hin as [c [Heq Hc]].
  fold prevalence_marker in *.
  destruct (Str.contains prevalence_marker c) eqn:Hm.
  - exists c. repeat split; try assumption; [symmetry; exact Heq|].
    subst c'. unfold prevalence_name in Hc'.
    apply contains_lower in Hc'. rewrite lower_title in Hc'. exact Hc'.
  - subst c'. congruence.
Qed.

(** C2, concrete runs: the prevalence columns of a frame, and the one
    column of [shouting_frame] in which the substring survives. *)
Lemma prevalence_transform_renames_witness :
  columns (process_prevalence_data prevalence_frame) =
    ["Entity"; "Code"; "Year"; "Anxiety"; "Eating"]
  /\ exists c, In c (columns shouting_frame)
       /\ Str.contains "disorderssharepopulation" c = true
       /\ "Xdisorderssharepopulation" = Str.title (Str.replace "disorderssharepopulation" "" c)
       /\ Str.contains "disorderssharepopulation"
            (Str.lower (Str.replace "disorderssharepopulation" "" c)) = true.
Proof.
  split.
  - rewrite (proj1 (proj2 (prevalence_transform_renames prevalence_frame))). reflexivity.
  - apply (proj2 (proj2 (prevalence_transform_renames shouting_frame))).
    + right; left; reflexivity.
    + reflexivity.
Defined.

(** C2, counterexample: a column named
    "XDISORDERSSHAREPOPULATIONdisorderssharepopulation" is renamed to
    "Xdisorderssharepopulation", which contains the substring. *)
Lemma prevalence_marker_survives :
  columns (process_prevalence_data shouting_frame) = ["Entity"; "Xdisorderssharepopulation"]
  /\ Str.contains "disorderssharepopulation" "Xdisorderssharepopulation" = true.
Proof. split; reflexivity. Qed.

(** *** The string functions against the words of the specification *)

Section WordsOfStrings.

Ltac ascii_cases c := destruct c as [[] [] [] [] [] [] [] []].




Lemma endswith_iff s suffix : Str.endswith s suffix = true <-> Words.ends_in suffix s.
Proof.
  unfold Words.ends_in. split.
  - induction s as [|c s IH]; intros H.
    + change ((EmptyString =? suffix)%string || false = true) in H.
      rewrite orb_false_r in H. apply String.eqb_eq in H.
      exists EmptyString. exact H.
    + change (((String c s) =? suffix)%string || Str.endswith s suffix = true) in H.
      apply orb_true_iff in H. destruct H as [H|H].
      * apply String.eqb_eq in H. exists EmptyString. exact H.
      * destruct (IH H) as [a ->]. exists (String c a). reflexivity.
  - intros [a ->]. apply endswith_app.
Qed.










End WordsOfStrings.



(** C4. The treatment-gap transform keeps the rows, renames
    "Potentiallyadequatetreatmentconditional" to "AdequateTreatment",
    "Othertreatmentsconditional" to "OtherTreatments" and
    "Untreatedconditional" to "Untreated" wherever they occur, and leaves
    every other column name unchanged. *)
Theorem treatment_gap_transform_renames (df : DataFrame) :
  rows (process_treatment_gap_data df) = rows df
  /\ columns (process_treatment_gap_data df) = map treatment_gap_name (columns df)
  /\ treatment_gap_name "Potentiallyadequatetreatmentconditional" = "AdequateTreatment"
  /\ treatment_gap_name "Othertreatmentsconditional" = "OtherTreatments"
  /\ treatment_gap_name "Untreatedconditional" = "Untreated"
  /\ forall c, c <> "Potentiallyadequatetreatmentconditional" ->
       c <> "Othertreatmentsconditional" -> c <> "Untreatedconditional" ->
       treatment_gap_name c = c.
Proof.
  split; [reflexivity|]. split.
  - unfold process_treatment_gap_data, Frame.rename. cbn [columns].
    apply map_ext. intros c.
    unfold Frame.rename_label, treatment_gap_mapping, treatment_gap_name. cbn [assoc].
    repeat (destruct (_ =? _)%string; [reflexivity|]). reflexivity.
  - repeat (split; [reflexivity|]).
    intros c H1 H2 H3. unfold treatment_gap_name.
    apply String.eqb_neq in H1, H2, H3. rewrite H1, H2, H3. reflexivity.
Qed.

(** C4, a concrete run: the sample frame, whose last column is renamed and
    whose column Year is not. *)
Lemma treatment_gap_transform_renames_witness :
  columns (process_treatment_gap_data sample_frame) = ["Entity"; "Code"; "Year"; "Untreated"]
  /\ treatment_gap_name "Year" = "Year".
Proof.
  destruct (treatment_gap_transform_renames sample_frame) as (_ & Hc & _ & _ & _ & Hn).
  split.
  - rewrite Hc. reflexivity.
  - apply Hn; discriminate.
Defined.

(** ** Boolean indexing *)

Section Masks.

Lemma select_map {A : Type} (p : A -> bool) (xs : list A) :
  Frame.select xs (map p xs) = filter p xs.
Proof.
  induction xs as [|x xs IH]; simpl; [reflexivity|].
  rewrite IH. reflexivity.
Qed.

Lemma Subseq_nil_l {A : Type} (ys : list A) : Subseq [] ys.
Proof. induction ys; constructor; assumption. Qed.

Lemma select_Subseq {A : Type} (xs : list A) (mask : list bool) :
  Subseq (Frame.select xs mask) xs.
Proof.
  revert mask; induction xs as [|x xs IH]; intros mask; simpl.
  - constructor.
  - destruct mask as [|b mask]; [apply Subseq_nil_l|].
    destruct b; constructor; apply IH.
Qed.

Lemma filter_twice {A : Type} (p : A -> bool) (xs : list A) :
  filter p (filter p xs) = filter p xs.
Proof.
  induction xs as [|x xs IH]; simpl; [reflexivity|].
  destruct (p x) eqn:Hx; simpl; rewrite ?Hx, IH; reflexivity.
Qed.

Lemma getitem_column_at df l j :
  column_at df l j -> Frame.getitem df l = Returns (map (Frame.cell j) (rows df)).
Proof. unfold column_at, Frame.getitem. intros ->. reflexivity. Qed.

Lemma positions_absent l cols j : ~ In l cols -> Frame.positions l cols j = [].
Proof.
  revert j; induction cols as [|c cols IH]; intros j H; simpl; [reflexivity|].
  destruct (String.eqb_spec c l) as [->|_].
  - exfalso. apply H. left. reflexivity.
  - apply IH. intros Hin. apply H. right. exact Hin.
Qed.

Lemma getitem_absent df l : ~ In l (columns df) -> Frame.getitem df l = Raises (KeyError l).
Proof. intros H. unfold Frame.getitem. rewrite (positions_absent _ _ _ H). reflexivity. Qed.

Lemma column_at_rows_where keep df l j :
  column_at df l j -> column_at (rows_where keep df) l j.
Proof. exact (fun H => H). Qed.

(** Masking a frame by a test on the cells of one of its columns keeps the
    rows that pass the test. *)
Lemma mask_by_cell (p : value -> bool) df l j :
  column_at df l j ->
  (col <- Frame.getitem df l ;; Returns (Frame.getitem_mask df (map p col)))
  = Returns (rows_where (fun r => p (Frame.cell j r)) df).
Proof.
  intros H. rewrite (getitem_column_at _ _ _ H). simpl.
  unfold Frame.getitem_mask, rows_where. f_equal. f_equal.
  rewrite map_map. apply select_map.
Qed.

Lemma rows_where_twice keep df : rows_where keep (rows_where keep df) = rows_where keep df.
Proof. unfold rows_where. simpl. rewrite filter_twice. reflexivity. Qed.

Lemma ge_scalar_numeric (y : Z) (col : list value) :
  Forall (fun v => forall s, v <> VStr s) col ->
  Frame.ge_scalar col y = Returns (map (at_least y) col).
Proof.
  induction 1 as [|v col Hv _ IH]; simpl; [reflexivity|].
  rewrite IH. destruct v as [z|s|]; simpl; try reflexivity.
  exfalso. exact (Hv s eq_refl).
Qed.

End Masks.

(** ** Filter by region *)

Lemma filter_by_region_codes df region codes :
  assoc region region_codes = Some codes ->
  filter_by_region df region =
  (code <- Frame.getitem df "Code" ;;
   Returns (Frame.getitem_mask df (Frame.isin code codes))).
Proof.
  intros H. unfold filter_by_region. rewrite H.
  destruct (String.eqb_spec region "global") as [->|]; [discriminate | reflexivity].
Qed.

Lemma value_in_iff (codes : list string) (v : value) :
  Frame.value_in codes v = true <-> exists s, v = VStr s /\ In s codes.
Proof.
  destruct v as [z|s|]; simpl.
  - split; [discriminate | intros (s & H & _); discriminate H].
  - rewrite existsb_exists. split.
    + intros (x & Hx & E). apply String.eqb_eq in E. subst x. eauto.
    + intros (x & [= <-] & Hx). exists s. split; [exact Hx | apply String.eqb_refl].
  - split; [discriminate | intros (s & H & _); discriminate H].
Qed.

Lemma filter_by_region_on_column df region codes j :
  assoc region region_codes = Some codes ->
  column_at df "Code" j ->
  filter_by_region df region =
  Returns (rows_where (fun r => Frame.value_in codes (Frame.cell j r)) df).
Proof.
  intros Hr Hc. rewrite (filter_by_region_codes _ _ _ Hr).
  apply (mask_by_cell (Frame.value_in codes)). exact Hc.
Qed.

(** Without a Code column a region of the table raises KeyError. *)
Lemma filter_by_region_no_code df region codes :
  assoc region region_codes = Some codes ->
  ~ In "Code" (columns df) ->
  filter_by_region df region = Raises (KeyError "Code").
Proof.
  intros Hr Hc. rewrite (filter_by_region_codes _ _ _ Hr), (getitem_absent _ _ Hc).
  reflexivity.
Qed.

(** C5. Region "global" returns the frame itself. The region table has the
    five regions americas, europe, asia, africa and oceania, each with ten
    country codes; for such a region and a frame with a Code column the
    result is the frame restricted to the rows whose Code cell is one of the
    region's codes (a cell that is not text, or is missing, is no code).
    Any region that is neither "global" nor one of the five returns the
    frame itself. *)
Theorem filter_by_region_spec (df : DataFrame) :
  filter_by_region df "global" = Returns df
  /\ keys region_codes = ["americas"; "europe"; "asia"; "africa"; "oceania"]
  /\ assoc "americas" region_codes =
     Some ["USA"; "CAN"; "MEX"; "BRA"; "ARG"; "COL"; "PER"; "CHL"; "VEN"; "ECU"]
  /\ Forall (fun entry => length (snd entry) = 10%nat) region_codes
  /\ (forall region codes j,
        assoc region region_codes = Some codes ->
        column_at df "Code" j ->
        filter_by_region df region =
        Returns (rows_where (fun r => Frame.value_in codes (Frame.cell j r)) df))
  /\ (forall codes v,
        Frame.value_in codes v = true <-> exists s, v = VStr s /\ In s codes)
  /\ (forall region,
        region <> "global" -> ~ In region (keys region_codes) ->
        filter_by_region df region = Returns df).
Proof.
  split; [reflexivity|]. split; [reflexivity|]. split; [reflexivity|].
  split; [repeat constructor|]. split; [|split].
  - intros region codes j. apply filter_by_region_on_column.
  - apply value_in_iff.
  - intros region Hg Hk. unfold filter_by_region.
    apply String.eqb_neq in Hg. rewrite Hg.
    destruct (assoc region region_codes) eqn:Ha; [|reflexivity].
    exfalso. apply Hk. apply (assoc_Some_key _ _ _ Ha).
Qed.

(** C5, a concrete run: the americas rows of the sample frame. *)
Lemma filter_by_region_spec_witness :
  column_at sample_frame "Code" 1
  /\ filter_by_region sample_frame "americas" =
     Returns {| columns := sample_columns; rows := [brazil_2015; chile_2020] |}.
Proof.
  split; [reflexivity|].
  destruct (filter_by_region_spec sample_frame) as (_ & _ & Ham & _ & H & _ & _).
  rewrite (H "americas" _ 1%nat Ham eq_refl). reflexivity.
Defined.

(** C6. Filtering by a region twice is filtering once, whatever the frame
    and the region: the second call, run on what the first returns, gives the
    outcome of the first; this holds for "europe" in particular. *)
Theorem filter_by_region_idempotent (df : DataFrame) (region : string) :
  (df' <- filter_by_region df region ;; filter_by_region df' region)
  = filter_by_region df region
  /\ (df' <- filter_by_region df "europe" ;; filter_by_region df' "europe")
     = filter_by_region df "europe".
Proof.
  assert (G : forall r,
    (df' <- filter_by_region df r ;; filter_by_region df' r) = filter_by_region df r).
  { intros r.
    destruct (String.eqb_spec r "global") as [->|Hg]; [reflexivity|].
    destruct (assoc r region_codes) as [codes|] eqn:Ha.
    - destruct (Frame.positions "Code" (columns df) 0) as [|j [|j' js]] eqn:Hp.
      + rewrite (filter_by_region_codes _ _ _ Ha).
        unfold Frame.getitem. rewrite Hp. reflexivity.
      + rewrite (filter_by_region_on_column _ _ _ j Ha Hp). cbn [bind].
        rewrite (filter_by_region_on_column _ _ _ j Ha
                   (column_at_rows_where _ _ _ _ Hp)).
        rewrite rows_where_twice. reflexivity.
      + rewrite (filter_by_region_codes _ _ _ Ha).
        unfold Frame.getitem. rewrite Hp. reflexivity.
    - apply String.eqb_neq in Hg.
      unfold filter_by_region at 2 3. rewrite Hg, Ha. cbn [bind].
      unfold filter_by_region. rewrite Hg, Ha. reflexivity. }
  split; apply G.
Qed.

Example filter_by_region_europe_twice :
  (df' <- filter_by_region sample_frame "europe" ;; filter_by_region df' "europe")
  = Returns {| columns := sample_columns; rows := [france_2020] |}.
Proof. reflexivity. Qed.

(** ** Filter by period *)

Lemma filter_by_period_from (y : Z) df j :
  column_at df "Year" j -> numeric_column df j ->
  (col <- Frame.getitem df "Year" ;;
   mask <- Frame.ge_scalar col y ;;
   Returns (Frame.getitem_mask df mask))
  = Returns (rows_where (fun r => at_least y (Frame.cell j r)) df).
Proof.
  intros Hc Hn. rewrite (getitem_column_at _ _ _ Hc). cbn [bind].
  rewrite ge_scalar_numeric.
  - cbn [bind]. unfold Frame.getitem_mask, rows_where. f_equal. f_equal.
    rewrite map_map. apply select_map.
  - apply Forall_map. exact Hn.
Qed.

Lemma at_least_iff (y : Z) (v : value) :
  at_least y v = true <-> exists z, v = VInt z /\ y <= z.
Proof.
  destruct v as [z|s|]; simpl.
  - rewrite Z.leb_le. split; [eauto | intros (z' & [= <-] & H); exact H].
  - split; [discriminate | intros (z & H & _); discriminate H].
  - split; [discriminate | intros (z & H & _); discriminate H].
Qed.

(** Without a Year column the periods "recent" and "decade" raise KeyError,
    and a Year column that holds text makes them raise TypeError. *)
Lemma filter_by_period_no_year df :
  ~ In "Year" (columns df) ->
  filter_by_period df "recent" = Raises (KeyError "Year")
  /\ filter_by_period df "decade" = Raises (KeyError "Year").
Proof.
  intros Hc. unfold filter_by_period. cbn [String.eqb Ascii.eqb Bool.eqb].
  rewrite (getitem_absent _ _ Hc). split; reflexivity.
Qed.

Example filter_by_period_text_year :
  filter_by_period
    {| columns := ["Year"]; rows := [ {| label := 0; cells := [VStr "2019"] |} ] |}
    "recent" = Raises TypeError.
Proof. reflexivity. Qed.

(** C9. Period "all" returns the frame itself. The reference year is the
    constant 2023, and the filter is a function of the frame and the period
    alone: on a frame with a Year column of numbers, "recent" returns the
    rows with Year >= 2018 and "decade" the rows with Year >= 2013. Any other
    period returns the frame itself. *)
Theorem filter_by_period_spec (df : DataFrame) :
  filter_by_period df "all" = Returns df
  /\ current_year = 2023
  /\ (forall j,
        column_at df "Year" j -> numeric_column df j ->
        filter_by_period df "recent" =
          Returns (rows_where (fun r => at_least 2018 (Frame.cell j r)) df)
        /\ filter_by_period df "decade" =
          Returns (rows_where (fun r => at_least 2013 (Frame.cell j r)) df))
  /\ (forall y v, at_least y v = true <-> exists z, v = VInt z /\ y <= z)
  /\ (forall period,
        period <> "all" -> period <> "recent" -> period <> "decade" ->
        filter_by_period df period = Returns df).
Proof.
  split; [reflexivity|]. split; [reflexivity|]. split; [|split].
  - intros j Hc Hn. split.
    + apply (filter_by_period_from 2018 df j Hc Hn).
    + apply (filter_by_period_from 2013 df j Hc Hn).
  - apply at_least_iff.
  - intros period Ha Hr Hd. unfold filter_by_period.
    apply String.eqb_neq in Ha, Hr, Hd. rewrite Ha, Hr, Hd. reflexivity.
Qed.

(** C9, a concrete run on the sample frame, whose years are 2015, 2020,
    2018 and 2020. *)
Lemma filter_by_period_spec_witness :
  column_at sample_frame "Year" 2 /\ numeric_column sample_frame 2
  /\ filter_by_period sample_frame "recent" =
     Returns {| columns := sample_columns; rows := [france_2020; africa_2018; chile_2020] |}
  /\ filter_by_period sample_frame "decade" =
     Returns {| columns := sample_columns;
                rows := [brazil_2015; france_2020; africa_2018; chile_2020] |}.
Proof.
  assert (Hc : column_at sample_frame "Year" 2) by reflexivity.
  assert (Hn : numeric_column sample_frame 2)
    by (repeat constructor; intros s; discriminate).
  destruct (filter_by_period_spec sample_frame) as (_ & _ & H & _ & _).
  destruct (H 2%nat Hc Hn) as [Hr Hd].
  rewrite Hr, Hd. repeat split; try reflexivity; exact Hn.
Defined.

(** ** Shape of the filters' results *)

Lemma Subseq_refl {A : Type} (xs : list A) : Subseq xs xs.
Proof. induction xs; constructor; assumption. Qed.

Lemma getitem_mask_shape df mask :
  columns (Frame.getitem_mask df mask) = columns df
  /\ Subseq (rows (Frame.getitem_mask df mask)) (rows df).
Proof. split; [reflexivity | apply select_Subseq]. Qed.

Lemma same_shape df : columns df = columns df /\ Subseq (rows df) (rows df).
Proof. split; [reflexivity | apply Subseq_refl]. Qed.

Ltac returned H :=
  simpl in H;
  match type of H with
  | Returns _ = Returns _ => injection H as <-
  | _ => discriminate H
  end.

(** C10. Whenever one of the three filters returns a frame, that frame has
    the columns of the input, in the same order, and its rows are rows of the
    input in their original order. *)
Theorem filters_keep_shape (df df' : DataFrame) :
  (exists region, filter_by_region df region = Returns df')
  \/ (exists year, filter_by_year df year = Returns df')
  \/ (exists period, filter_by_period df period = Returns df') ->
  columns df' = columns df /\ Subseq (rows df') (rows df).
Proof.
  intros [[region H] | [[year H] | [period H]]].
  - unfold filter_by_region in H.
    destruct (region =? "global")%string; [returned H; apply same_shape|].
    destruct (assoc region region_codes); [|returned H; apply same_shape].
    destruct (Frame.getitem df "Code"); returned H. apply getitem_mask_shape.
  - unfold filter_by_year in H.
    destruct (match year with YInt y => Returns y | YStr s => PyInt.int_of_str s end);
      [|returned H|returned H].
    cbn [bind] in H.
    destruct (Frame.getitem df "Year"); returned H. apply getitem_mask_shape.
  - unfold filter_by_period in H.
    destruct (period =? "all")%string; [returned H; apply same_shape|].
    destruct (period =? "recent")%string.
    { destruct (Frame.getitem df "Year") as [col| |]; [|returned H|returned H].
      cbn [bind] in H.
      destruct (Frame.ge_scalar col (current_year - 5)); returned H.
      apply getitem_mask_shape. }
    destruct (period =? "decade")%string; [|returned H; apply same_shape].
    destruct (Frame.getitem df "Year") as [col| |]; [|returned H|returned H].
    cbn [bind] in H.
    destruct (Frame.ge_scalar col (current_year - 10)); returned H.
    apply getitem_mask_shape.
Qed.

(** C10, a concrete run: the sample frame filtered by the year 2020. *)
Lemma filters_keep_shape_witness :
  filter_by_year sample_frame (YInt 2020) =
    Returns {| columns := sample_columns; rows := [france_2020; chile_2020] |}
  /\ Subseq [france_2020; chile_2020] [brazil_2015; france_2020; africa_2018; chile_2020].
Proof.
  split; [reflexivity|].
  refine (proj2 (filters_keep_shape sample_frame
                   {| columns := sample_columns; rows := [france_2020; chile_2020] |} _)).
  right; left. exists (YInt 2020). reflexivity.
Defined.

(** ** Reading integers *)

Section Parsing.

Import PyInt Literal.

Ltac ascii_cases c := destruct c as [[] [] [] [] [] [] [] []].

Lemma space_char c :
  is_space c = true ->
  digit_of c = None /\ (c =? "_")%char = false
  /\ (c =? "-")%char = false /\ (c =? "+")%char = false.
Proof. ascii_cases c; vm_compute; intros H; try discriminate H; repeat split. Qed.

Lemma digit_char c :
  is_digit c = true ->
  (exists D, digit_of c = Some D) /\ is_space c = false
  /\ (c =? "-")%char = false /\ (c =? "+")%char = false.
Proof.
  ascii_cases c; vm_compute; intros H; try discriminate H;
    (split; [eexists; reflexivity | repeat split]).
Qed.

Lemma digit_of_is_digit c D : digit_of c = Some D -> is_digit c = true.
Proof. ascii_cases c; vm_compute; intros H; try discriminate H; reflexivity. Qed.

Lemma all_space_spaces s : all_space s = true <-> spaces s.
Proof.
  induction s as [|c s IH]; simpl.
  - split; [constructor | reflexivity].
  - rewrite andb_true_iff, IH. split.
    + intros [Hc Hs]. constructor; assumption.
    + inversion 1; subst. split; assumption.
Qed.

Lemma scan_spaces s : spaces s -> scan_digits false s = Some (Nil, s).
Proof.
  destruct 1 as [|c s Hc Hs]; [reflexivity|].
  destruct (space_char c Hc) as (Hd & Hu & _).
  simpl. rewrite Hd, Hu. reflexivity.
Qed.

(** What [scan_digits false] accepts: the rest of a number after a digit. *)
Let after_digit (s : string) : Prop :=
  spaces s \/ digits s \/ exists s', s = String "_"%char s' /\ digits s'.

Lemma scan_digits_sound s : forall need d rest,
  scan_digits need s = Some (d, rest) -> all_space rest = true ->
  if need then digits s else after_digit s.
Proof.
  induction s as [|c s IH]; intros need d rest H Hrest.
  - destruct need; simpl in H; [discriminate|]. left. constructor.
  - simpl in H. destruct (digit_of c) as [D|] eqn:Hd.
    + destruct (scan_digits false s) as [[d' rest']|] eqn:Hs; [|discriminate].
      injection H as _ <-.
      pose proof (digit_of_is_digit _ _ Hd) as Hc.
      assert (Hdig : digits (String c s)).
      { destruct (IH false d' rest' Hs Hrest) as [Hsp | [Hdg | [s' [-> Hdg]]]].
        - apply digits_last; assumption.
        - apply digits_next; assumption.
        - apply digits_underscore; assumption. }
      destruct need; [exact Hdig | right; left; exact Hdig].
    + destruct need; [discriminate|].
      destruct (Ascii.eqb_spec c "_"%char) as [->|Hu].
      * right; right. exists s. split; [reflexivity|].
        exact (IH true d rest H Hrest).
      * injection H as _ <-. left. apply all_space_spaces. exact Hrest.
Qed.

Lemma scan_digits_complete s :
  digits s ->
  forall need, exists d rest, scan_digits need s = Some (d, rest) /\ all_space rest = true.
Proof.
  induction 1 as [c s Hc Hs | c s Hc Hs IH | c s Hc Hs IH]; intros need;
    destruct (digit_char c Hc) as ([D HD] & _); simpl; rewrite HD.
  - rewrite (scan_spaces s Hs). exists (D Nil), s. split; [reflexivity|].
    apply all_space_spaces. exact Hs.
  - destruct (IH false) as (d & rest & -> & Hrest). exists (D d), rest. auto.
  - destruct (IH true) as (d & rest & -> & Hrest). exists (D d), rest. auto.
Qed.

Lemma unsigned_of_str_digits negative s :
  digits s <-> exists z, unsigned_of_str negative s = Returns z.
Proof.
  unfold unsigned_of_str. split.
  - intros H. destruct (scan_digits_complete s H true) as (d & rest & -> & ->).
    eexists; reflexivity.
  - intros [z H].
    destruct (scan_digits true s) as [[d rest]|] eqn:Hs; [|discriminate].
    destruct (all_space rest) eqn:Hrest; [|discriminate].
    exact (scan_digits_sound s true d rest Hs Hrest).
Qed.

Lemma digits_head s : digits s -> exists c r, s = String c r /\ is_digit c = true.
Proof. destruct 1; eexists _, _; split; try reflexivity; assumption. Qed.

Lemma signed_of_str_signed s : signed s <-> exists z, signed_of_str s = Returns z.
Proof.
  split.
  - intros [s' H | s' H | s' H].
    + destruct (digits_head s' H) as (c & r & -> & Hc).
      destruct (digit_char c Hc) as (_ & _ & Hm & Hp).
      simpl. rewrite Hm, Hp. apply (unsigned_of_str_digits false). exact H.
    + simpl. apply (unsigned_of_str_digits false). exact H.
    + simpl. apply (unsigned_of_str_digits true). exact H.
  - intros [z H]. destruct s as [|c r]; [discriminate|]. simpl in H.
    destruct (Ascii.eqb_spec c "-"%char) as [->|_].
    { apply signed_minus. apply (unsigned_of_str_digits true). eauto. }
    destruct (Ascii.eqb_spec c "+"%char) as [->|_].
    { apply signed_plus. apply (unsigned_of_str_digits false). eauto. }
    apply signed_none. apply (unsigned_of_str_digits false). eauto.
Qed.

Lemma signed_head s :
  signed s -> exists c r, s = String c r /\ is_space c = false.
Proof.
  intros [s' H | s' H | s' H]; [|eexists _, _; split; reflexivity ..].
  destruct (digits_head s' H) as (c & r & -> & Hc).
  exists c, r. split; [reflexivity|]. apply (digit_char c Hc).
Qed.

Lemma ascii_literal_lstrip s : ascii_literal s <-> signed (lstrip s).
Proof.
  split.
  - induction 1 as [c s Hc _ IH | s H].
    + simpl. rewrite Hc. exact IH.
    + destruct (signed_head s H) as (c & r & -> & Hc). simpl. rewrite Hc. exact H.
  - induction s as [|c s IH]; simpl.
    + apply literal_signed.
    + destruct (is_space c) eqn:Hc.
      * intros H. apply literal_space; auto.
      * apply literal_signed.
Qed.

(** The reader of ASCII text accepts the literals of the ASCII grammar, and
    nothing else. *)
Lemma from_ascii_literal s : ascii_literal s <-> exists z, from_ascii s = Returns z.
Proof. unfold from_ascii. rewrite ascii_literal_lstrip. apply signed_of_str_signed. Qed.

Lemma from_ascii_outcome s :
  (exists z, from_ascii s = Returns z) \/ from_ascii s = Raises ValueError.
Proof.
  unfold from_ascii, signed_of_str, unsigned_of_str.
  destruct (lstrip s) as [|c r]; [right; reflexivity|].
  destruct (c =? "-")%char; [|destruct (c =? "+")%char];
    match goal with
    | |- context [scan_digits true ?x] =>
        destruct (scan_digits true x) as [[d rest]|]; [|right; reflexivity];
        destruct (all_space rest); [left; eexists; reflexivity | right; reflexivity]
    end.
Qed.


(** Reading back what [str] prints. *)

Lemma scan_printed d : scan_digits false (NilEmpty.string_of_uint d) = Some (d, EmptyString).
Proof. induction d; simpl; rewrite ?IHd; reflexivity. Qed.

Lemma unsigned_of_printed negative d :
  d <> Nil ->
  unsigned_of_str negative (NilZero.string_of_uint d) =
  Returns (if negative then - Z.of_uint d else Z.of_uint d).
Proof.
  intros Hd. unfold unsigned_of_str.
  destruct d; [contradiction | ..]; simpl; rewrite scan_printed; reflexivity.
Qed.

Lemma from_ascii_of_int z : from_ascii (str_of_int z) = Returns z.
Proof.
  destruct z as [|p|p]; [reflexivity | ..]; unfold str_of_int; simpl.
  - pose proof (DecimalPos.Unsigned.to_uint_nonnil p) as Hn.
    pose proof (unsigned_of_printed false _ Hn) as H.
    unfold from_ascii.
    replace (lstrip (NilZero.string_of_uint (Pos.to_uint p)))
      with (NilZero.string_of_uint (Pos.to_uint p))
      by (destruct (Pos.to_uint p); try contradiction; reflexivity).
    replace (signed_of_str (NilZero.string_of_uint (Pos.to_uint p)))
      with (unsigned_of_str false (NilZero.string_of_uint (Pos.to_uint p)))
      by (destruct (Pos.to_uint p); try contradiction; reflexivity).
    rewrite H. unfold Z.of_uint. rewrite DecimalPos.Unsigned.of_to. reflexivity.
  - pose proof (DecimalPos.Unsigned.to_uint_nonnil p) as Hn.
    unfold from_ascii. simpl.
    rewrite (unsigned_of_printed true _ Hn).
    unfold Z.of_uint. rewrite DecimalPos.Unsigned.of_to. reflexivity.
Qed.

End Parsing.

(** ** Reading integers in any script *)

Section UnicodeReading.

Import PyInt Literal.

Ltac ascii_cases c := destruct c as [[] [] [] [] [] [] [] []].

Lemma find_run_spec zeros cp v :
  find_run zeros cp = Some v ->
  exists z, In z zeros /\ (z <= cp)%N /\ (cp < z + 10)%N /\ v = (cp - z)%N.
Proof.
  induction zeros as [|z zeros IH]; simpl; [discriminate|].
  destruct ((z <=? cp)%N && (cp <? z + 10)%N) eqn:E.
  - intros [= <-]. apply andb_true_iff in E. destruct E as [E1 E2].
    apply N.leb_le in E1. apply N.ltb_lt in E2. exists z. auto.
  - intros H. destruct (IH H) as (z' & Hin & Hz). exists z'. split; [right|]; assumption.
Qed.

Lemma below_ten (v : N) :
  (v < 10)%N -> In v [0; 1; 2; 3; 4; 5; 6; 7; 8; 9]%N.
Proof.
  intros H. simpl.
  assert (v = 0 \/ v = 1 \/ v = 2 \/ v = 3 \/ v = 4 \/ v = 5 \/ v = 6 \/ v = 7
          \/ v = 8 \/ v = 9)%N by lia.
  intuition auto.
Qed.

Lemma digit_char_digit (v : N) :
  (v < 10)%N ->
  is_digit (digit_char v) = true /\ is_space (digit_char v) = false
  /\ (digit_char v =? "+")%char = false /\ (digit_char v =? "-")%char = false
  /\ (digit_char v =? "_")%char = false.
Proof.
  intros H. apply below_ten in H. simpl in H.
  repeat (destruct H as [<- | H]; [repeat split|]). contradiction.
Qed.

(** No decimal digit is a white-space character. *)
Lemma decimal_not_space cp v : decimal_value cp = Some v -> unicode_space cp = false.
Proof.
  intros H. apply find_run_spec in H. destruct H as (z & Hin & Hz1 & Hz2 & ->).
  assert (T : forallb (fun z => forallb (fun k => negb (unicode_space (z + k)))
                                          [0; 1; 2; 3; 4; 5; 6; 7; 8; 9]%N)
                      decimal_zeros = true) by (vm_compute; reflexivity).
  rewrite forallb_forall in T. specialize (T z Hin).
  rewrite forallb_forall in T.
  assert (Hk : (cp - z < 10)%N) by lia.
  specialize (T _ (below_ten _ Hk)).
  apply negb_true_iff in T. replace (z + (cp - z))%N with cp in T by lia. exact T.
Qed.

Lemma decimal_value_bound cp v : decimal_value cp = Some v -> (v < 10)%N.
Proof.
  intros H. apply find_run_spec in H. destruct H as (z & _ & Hz1 & Hz2 & ->). lia.
Qed.

(** A character below 127 is to the grammar on characters what it is to the
    ASCII reader. *)
Lemma ascii_class (c : ascii) :
  (N_of_ascii c <? 127)%N = true ->
  (is_space c = white_space (N_of_ascii c))
  /\ (is_digit c = decimal_digit (N_of_ascii c))
  /\ ((c =? "+")%char = (N_of_ascii c =? 43)%N)
  /\ ((c =? "-")%char = (N_of_ascii c =? 45)%N)
  /\ ((c =? "_")%char = (N_of_ascii c =? 95)%N).
Proof.
  ascii_cases c; vm_compute; intros H; try discriminate H; repeat split.
Qed.

Lemma below_127 cp : (cp <? 127)%N = true -> N_of_ascii (ascii_of_N cp) = cp.
Proof. intros H. apply N.ltb_lt in H. apply N_ascii_embedding. lia. Qed.

Lemma unicode_space_white cp :
  (cp <? 127)%N = false -> unicode_space cp = white_space cp.
Proof.
  intros Hlt.
  destruct (unicode_space cp) eqn:H.
  - unfold unicode_space in H. apply existsb_exists in H.
    destruct H as (x & Hin & E). apply N.eqb_eq in E. subst x. simpl in Hin.
    repeat (destruct Hin as [<- | Hin]; [first [discriminate Hlt | reflexivity]|]).
    contradiction.
  - destruct (white_space cp) eqn:W; [|reflexivity].
    unfold white_space in W. apply existsb_exists in W.
    destruct W as (x & Hin & E). apply N.eqb_eq in E. subst x. simpl in Hin.
    repeat (destruct Hin as [<- | Hin]; [first [discriminate Hlt | discriminate H]|]).
    contradiction.
Qed.

Lemma not_below_127 cp : (cp <? 127)%N = false ->
  (cp =? 43)%N = false /\ (cp =? 45)%N = false /\ (cp =? 95)%N = false.
Proof.
  intros H. apply N.ltb_ge in H. repeat split; apply N.eqb_neq; lia.
Qed.

(** The first character of a text, as [to_ascii] hands it over: either an
    ASCII character of the same class, followed by the rest, or the question
    mark that ends the text, for a character of no class. *)
Lemma to_ascii_head (cp : N) (t : list N) :
  (exists c, to_ascii (cp :: t) = String c (to_ascii t)
     /\ is_space c = white_space cp /\ is_digit c = decimal_digit cp
     /\ (c =? "+")%char = (cp =? 43)%N /\ (c =? "-")%char = (cp =? 45)%N
     /\ (c =? "_")%char = (cp =? 95)%N)
  \/ (to_ascii (cp :: t) = "?" /\ white_space cp = false /\ decimal_digit cp = false
      /\ (cp =? 43)%N = false /\ (cp =? 45)%N = false /\ (cp =? 95)%N = false).
Proof.
  cbn [to_ascii]. destruct (cp <? 127)%N eqn:Hlt.
  - left. exists (ascii_of_N cp). split; [reflexivity|].
    pose proof (ascii_class (ascii_of_N cp)) as H.
    rewrite (below_127 cp Hlt) in H. exact (H Hlt).
  - destruct (not_below_127 cp Hlt) as (Hp & Hm & Hu).
    rewrite (unicode_space_white cp Hlt).
    destruct (white_space cp) eqn:W.
    + left. exists " "%char. split; [reflexivity|]. rewrite Hp, Hm, Hu.
      assert (D : decimal_digit cp = false).
      { unfold decimal_digit. destruct (decimal_value cp) as [v|] eqn:E; [|reflexivity].
        apply decimal_not_space in E. rewrite (unicode_space_white cp Hlt), W in E.
        discriminate E. }
      rewrite D. repeat split.
    + unfold decimal_digit. destruct (decimal_value cp) as [v|] eqn:E.
      * left. exists (digit_char v). split; [reflexivity|].
        destruct (digit_char_digit v (decimal_value_bound cp v E)) as (H1 & H2 & H3 & H4 & H5).
        rewrite H1, H2, H3, H4, H5, Hp, Hm, Hu. repeat split.
      * right. repeat split; assumption.
Qed.

Lemma question_mark_no_class :
  is_space "?" = false /\ is_digit "?" = false
  /\ ("?" =? "+")%char = false /\ ("?" =? "-")%char = false.
Proof. repeat split. Qed.

(** From the grammar on characters to the grammar on ASCII text. *)

Lemma Spaces_to_ascii t : Spaces t -> spaces (to_ascii t).
Proof.
  induction 1 as [|cp t Hw _ IH]; [constructor|].
  destruct (to_ascii_head cp t) as [(c & -> & Hs & _) | (_ & W & _)].
  - constructor; [rewrite Hs; exact Hw | exact IH].
  - rewrite W in Hw. discriminate Hw.
Qed.

Lemma Digits_to_ascii t : Digits t -> digits (to_ascii t).
Proof.
  induction 1 as [cp t Hd Hs | cp t Hd _ IH | cp t Hd _ IH];
    (destruct (to_ascii_head cp t) as [(c & E & _ & Hc & _) | (_ & _ & D & _)];
     [|rewrite D in Hd; discriminate Hd]).
  - rewrite E. apply digits_last; [rewrite Hc; exact Hd | apply Spaces_to_ascii; exact Hs].
  - rewrite E. apply digits_next; [rewrite Hc; exact Hd | exact IH].
  - destruct (to_ascii_head cp (95%N :: t)) as [(c' & E' & _ & Hc' & _) | (_ & _ & D & _)];
      [|rewrite D in Hd; discriminate Hd].
    rewrite E'. change (to_ascii (95%N :: t)) with (String "_" (to_ascii t)).
    apply digits_underscore; [rewrite Hc'; exact Hd | exact IH].
Qed.

Lemma Signed_to_ascii t : Signed t -> signed (to_ascii t).
Proof.
  intros [t' H | t' H | t' H].
  - apply signed_none. apply Digits_to_ascii. exact H.
  - change (to_ascii (43%N :: t')) with (String "+" (to_ascii t')).
    apply signed_plus. apply Digits_to_ascii. exact H.
  - change (to_ascii (45%N :: t')) with (String "-" (to_ascii t')).
    apply signed_minus. apply Digits_to_ascii. exact H.
Qed.

Lemma Text_to_ascii t : Text t -> ascii_literal (to_ascii t).
Proof.
  induction 1 as [cp t Hw _ IH | t H].
  - destruct (to_ascii_head cp t) as [(c & -> & Hs & _) | (_ & W & _)].
    + apply literal_space; [rewrite Hs; exact Hw | exact IH].
    + rewrite W in Hw. discriminate Hw.
  - apply literal_signed. apply Signed_to_ascii. exact H.
Qed.

(** And back. *)

Lemma spaces_inv c s : spaces (String c s) -> is_space c = true /\ spaces s.
Proof. inversion 1; subst; auto. Qed.

Lemma digits_inv s :
  digits s ->
  exists c r, s = String c r /\ is_digit c = true
    /\ (spaces r \/ digits r \/ exists r', r = String "_" r' /\ digits r').
Proof.
  destruct 1 as [c r Hc Hr | c r Hc Hr | c r Hc Hr]; exists c; eexists;
    (split; [reflexivity|]); (split; [exact Hc|]); eauto.
Qed.

Lemma signed_inv s :
  signed s ->
  digits s \/ (exists r, s = String "+" r /\ digits r)
  \/ (exists r, s = String "-" r /\ digits r).
Proof. destruct 1; eauto. Qed.

Lemma ascii_literal_inv s :
  ascii_literal s ->
  signed s \/ exists c r, s = String c r /\ is_space c = true /\ ascii_literal r.
Proof. destruct 1; eauto 6. Qed.

Lemma Spaces_of_ascii t : spaces (to_ascii t) -> Spaces t.
Proof.
  induction t as [|cp t IH]; intros H; [constructor|].
  destruct (to_ascii_head cp t) as [(c & E & Hs & _) | (E & _)]; rewrite E in H;
    apply spaces_inv in H; destruct H as [Hc Hrest].
  - constructor; [rewrite <- Hs; exact Hc | apply IH; exact Hrest].
  - discriminate Hc.
Qed.

Lemma Digits_of_ascii n : forall t,
  (length t <= n)%nat -> digits (to_ascii t) -> Digits t.
Proof.
  induction n as [|n IH]; intros t Hn H;
    apply digits_inv in H; destruct H as (c & r & E & Hc & Hr);
    (destruct t as [|cp t]; [discriminate E|]); simpl in Hn; [lia|].
  destruct (to_ascii_head cp t) as [(c' & E' & _ & Hd & _) | (E' & _)];
    rewrite E' in E; injection E as <- <-; [|discriminate Hc].
  rewrite Hd in Hc.
  destruct Hr as [Hr | [Hr | (r' & Heq & Hr)]].
  - apply Digits_last; [exact Hc | apply Spaces_of_ascii; exact Hr].
  - apply Digits_next; [exact Hc | apply IH; [lia | exact Hr]].
  - destruct t as [|cp2 t2]; [discriminate Heq|]. simpl in Hn.
    destruct (to_ascii_head cp2 t2) as [(c2 & E2 & _ & _ & _ & _ & Hu) | (E2 & _)];
      rewrite E2 in Heq; [|discriminate Heq].
    injection Heq as -> <-.
    assert (cp2 = 95%N) as -> by (apply N.eqb_eq; rewrite <- Hu; reflexivity).
    apply Digits_underscore; [exact Hc | apply IH; [lia | exact Hr]].
Qed.

Lemma Signed_of_ascii t : signed (to_ascii t) -> Signed t.
Proof.
  intros H. apply signed_inv in H. destruct H as [Hd | [(r & Heq & Hd) | (r & Heq & Hd)]].
  - apply Signed_none. apply (Digits_of_ascii (length t)); [lia | exact Hd].
  - destruct t as [|cp t]; [discriminate Heq|].
    destruct (to_ascii_head cp t) as [(c & E & _ & _ & Hp & _) | (E & _)];
      rewrite E in Heq; [|discriminate Heq].
    injection Heq as -> <-.
    assert (cp = 43%N) as -> by (apply N.eqb_eq; rewrite <- Hp; reflexivity).
    apply Signed_plus. apply (Digits_of_ascii (length t)); [lia | exact Hd].
  - destruct t as [|cp t]; [discriminate Heq|].
    destruct (to_ascii_head cp t) as [(c & E & _ & _ & _ & Hm & _) | (E & _)];
      rewrite E in Heq; [|discriminate Heq].
    injection Heq as -> <-.
    assert (cp = 45%N) as -> by (apply N.eqb_eq; rewrite <- Hm; reflexivity).
    apply Signed_minus. apply (Digits_of_ascii (length t)); [lia | exact Hd].
Qed.

Lemma Text_of_ascii t : ascii_literal (to_ascii t) -> Text t.
Proof.
  induction t as [|cp t IH]; intros H;
    apply ascii_literal_inv in H; destruct H as [Hs | (c & r & Heq & Hc & Hr)];
    try (apply Text_signed; apply Signed_of_ascii; exact Hs).
  - discriminate Heq.
  - destruct (to_ascii_head cp t) as [(c' & E & Hsp & _) | (E & _)];
      rewrite E in Heq; injection Heq as <- <-.
    + apply Text_space; [rewrite <- Hsp; exact Hc | apply IH; exact Hr].
    + discriminate Hc.
Qed.

(** [int] accepts the integer literals of the grammar, and nothing else. *)
Lemma int_of_str_literal s : int_literal s <-> exists z, int_of_str s = Returns z.
Proof.
  unfold int_literal, int_of_str. rewrite <- from_ascii_literal.
  split; [apply Text_to_ascii | apply Text_of_ascii].
Qed.

Lemma int_of_str_outcome s :
  (exists z, int_of_str s = Returns z) \/ int_of_str s = Raises ValueError.
Proof. apply from_ascii_outcome. Qed.

Lemma int_of_str_not_literal s : ~ int_literal s -> int_of_str s = Raises ValueError.
Proof.
  intros H. destruct (int_of_str_outcome s) as [Hz|]; [|assumption].
  exfalso. apply H, int_of_str_literal, Hz.
Qed.

(** Plain ASCII text reaches the reader as it is. *)

Lemma to_ascii_plain s : Utf8.plain s = true -> to_ascii (Utf8.code_points s) = s.
Proof.
  induction s as [|c s IH]; [reflexivity|].
  cbn [Utf8.plain]. intros H. apply andb_true_iff in H. destruct H as [Hc Hs].
  assert (H128 : (Utf8.byte c <? 128)%N = true).
  { apply N.ltb_lt in Hc. apply N.ltb_lt. lia. }
  cbn [Utf8.code_points]. cbv zeta. rewrite H128. cbn [to_ascii]. rewrite Hc.
  unfold Utf8.byte. rewrite ascii_N_embedding, (IH Hs). reflexivity.
Qed.

Lemma plain_app a b : Utf8.plain a = true -> Utf8.plain b = true -> Utf8.plain (a ++ b) = true.
Proof.
  induction a as [|c a IH]; [auto|]. cbn [Utf8.plain append]. intros H Hb.
  apply andb_true_iff in H. destruct H as [Hc Ha]. rewrite Hc, (IH Ha Hb). reflexivity.
Qed.

Lemma plain_spaces s : all_space s = true -> Utf8.plain s = true.
Proof.
  induction s as [|c s IH]; [reflexivity|]. cbn [Utf8.plain all_space]. intros H.
  apply andb_true_iff in H. destruct H as [Hc Hs]. rewrite (IH Hs), andb_true_r.
  revert Hc. clear. ascii_cases c; vm_compute; intros H; try discriminate H; reflexivity.
Qed.

Lemma plain_str_of_int z : Utf8.plain (str_of_int z) = true.
Proof.
  assert (U : forall d, Utf8.plain (NilEmpty.string_of_uint d) = true)
    by (induction d; simpl; auto).
  assert (V : forall d, Utf8.plain (NilZero.string_of_uint d) = true)
    by (intros d; destruct d; try apply U; reflexivity).
  unfold str_of_int. destruct (Z.to_int z); simpl; apply V.
Qed.

Lemma int_of_str_of_int z : int_of_str (str_of_int z) = Returns z.
Proof.
  unfold int_of_str. rewrite (to_ascii_plain _ (plain_str_of_int z)).
  apply from_ascii_of_int.
Qed.

End UnicodeReading.

(** ** Filter by year *)

Lemma value_eq_iff (y : Z) (v : value) : Frame.value_eq y v = true <-> v = VInt y.
Proof.
  destruct v as [z|s|]; simpl.
  - rewrite Z.eqb_eq. split; [intros -> | intros [= ->]]; reflexivity.
  - split; discriminate.
  - split; discriminate.
Qed.

Lemma filter_by_year_int df y j :
  column_at df "Year" j ->
  filter_by_year df (YInt y) = Returns (rows_where (fun r => Frame.value_eq y (Frame.cell j r)) df).
Proof.
  intros Hc. unfold filter_by_year. cbn [bind].
  apply (mask_by_cell (Frame.value_eq y)). exact Hc.
Qed.

(** Without a Year column the filter raises KeyError, once the year is read. *)
Lemma filter_by_year_no_year df y :
  ~ In "Year" (columns df) -> filter_by_year df (YInt y) = Raises (KeyError "Year").
Proof.
  intros Hc. unfold filter_by_year. cbn [bind]. rewrite (getitem_absent _ _ Hc).
  reflexivity.
Qed.

(** C7. A year given as the decimal text of an integer filters as that
    integer does, for every frame and every integer, 2020 included; and on a
    frame with a Year column both calls return the rows whose Year cell is
    that integer. *)
Theorem filter_by_year_str_int (df : DataFrame) (y : Z) :
  filter_by_year df (YStr (PyInt.str_of_int y)) = filter_by_year df (YInt y)
  /\ filter_by_year df (YStr "2020") = filter_by_year df (YInt 2020)
  /\ (forall j,
        column_at df "Year" j ->
        filter_by_year df (YInt y) =
          Returns (rows_where (fun r => Frame.value_eq y (Frame.cell j r)) df)
        /\ filter_by_year df (YStr (PyInt.str_of_int y)) =
          Returns (rows_where (fun r => Frame.value_eq y (Frame.cell j r)) df))
  /\ (forall v, Frame.value_eq y v = true <-> v = VInt y).
Proof.
  assert (E : filter_by_year df (YStr (PyInt.str_of_int y)) = filter_by_year df (YInt y)).
  { unfold filter_by_year. rewrite int_of_str_of_int. reflexivity. }
  split; [exact E|]. split; [reflexivity|]. split.
  - intros j Hc. rewrite E. split; apply filter_by_year_int; exact Hc.
  - apply value_eq_iff.
Qed.

(** C7, a concrete run: the 2020 rows of the sample frame, asked for with
    the text "2020". *)
Lemma filter_by_year_str_int_witness :
  column_at sample_frame "Year" 2
  /\ filter_by_year sample_frame (YStr "2020") =
     Returns {| columns := sample_columns; rows := [france_2020; chile_2020] |}.
Proof.
  split; [reflexivity|].
  destruct (filter_by_year_str_int sample_frame 2020) as (_ & _ & H & _).
  destruct (H 2%nat eq_refl) as [_ Hs].
  change (PyInt.str_of_int 2020) with "2020" in Hs.
  rewrite Hs. reflexivity.
Defined.

(** C8. A year given as text that is not an integer literal makes the
    filter raise ValueError, whatever the frame; no frame is returned. *)
Theorem filter_by_year_bad_literal (df : DataFrame) (s : string) :
  ~ Literal.int_literal s -> filter_by_year df (YStr s) = Raises ValueError.
Proof.
  intros H. unfold filter_by_year. rewrite (int_of_str_not_literal s H). reflexivity.
Qed.

Lemma not_literal_20x0 : ~ Literal.int_literal "20x0".
Proof. intros H. apply int_of_str_literal in H. destruct H as [z H]. discriminate H. Qed.

(** C8, a concrete run: the text "20x0". *)
Lemma filter_by_year_bad_literal_witness :
  ~ Literal.int_literal "20x0"
  /\ filter_by_year sample_frame (YStr "20x0") = Raises ValueError.
Proof.
  split; [exact not_literal_20x0|].
  apply (filter_by_year_bad_literal sample_frame "20x0"). exact not_literal_20x0.
Defined.

Example int_literal_samples :
  Literal.int_literal "2020" /\ Literal.int_literal " -7 " /\ Literal.int_literal "+2_020"
  /\ ~ Literal.int_literal "" /\ ~ Literal.int_literal "2020.0" /\ ~ Literal.int_literal "2__0".
Proof.
  repeat split;
    try (apply int_of_str_literal; eexists; reflexivity);
    intros H; apply int_of_str_literal in H; destruct H as [z H]; discriminate H.
Qed.

(** Years written in other scripts, or with the white space of Unicode
    around them, are integer literals too. *)
Example int_of_str_unicode :
  PyInt.int_of_str "２０２０" = Returns 2020
  /\ PyInt.int_of_str "١٢٣" = Returns 123
  /\ PyInt.int_of_str "-٣_९" = Returns (-39)
  /\ PyInt.int_of_str (String (ascii_of_N 194) (String (ascii_of_N 160) "2020")) = Returns 2020
  /\ PyInt.int_of_str "2020　" = Returns 2020
  /\ PyInt.int_of_str "²" = Raises ValueError
  /\ PyInt.int_of_str (String (ascii_of_N 28) "1") = Raises ValueError.
Proof. repeat split; vm_compute; reflexivity. Qed.

Example int_literal_unicode :
  Literal.int_literal "２０２０" /\ ~ Literal.int_literal "２０２０年".
Proof.
  split.
  - apply int_of_str_literal. eexists. vm_compute. reflexivity.
  - intros H. apply int_of_str_literal in H. destruct H as [z H].
    vm_compute in H. discriminate H.
Qed.

Example filter_by_year_fullwidth :
  filter_by_year sample_frame (YStr "２０２０")
  = Returns {| columns := sample_columns; rows := [france_2020; chile_2020] |}.
Proof. vm_compute. reflexivity. Qed.

(** ** The loader *)

Lemma load_dataset_found (w : World) dataset_id name :
  assoc dataset_id dataset_mapping = Some name ->
  path_exists w (DATA_DIR w ++ "/" ++ name) = true ->
  load_dataset w dataset_id =
  (df <- read_csv w (DATA_DIR w ++ "/" ++ name) ;; Returns (transform_of dataset_id df)).
Proof.
  intros Ha He. unfold load_dataset. rewrite Ha. cbv zeta. rewrite He. cbn [negb].
  destruct (read_csv w (DATA_DIR w ++ "/" ++ name)) as [df| |]; try reflexivity.
  cbn [bind]. unfold transform_of.
  repeat (destruct (_ =? _)%string; [reflexivity|]). reflexivity.
Qed.

(** C1, as the code has it. The dataset mapping has seven keys. An
    identifier that is not one of them makes the loader raise
    FileNotFoundError, and so does an identifier of the mapping whose file
    does not exist. In all other cases the loader calls the CSV reader on the
    file: when the reader returns a frame the loader returns it after the
    rename the identifier selects, and when the reader raises, the loader
    raises the same exception. *)
Theorem load_dataset_outcome (w : World) (dataset_id : string) :
  length (keys dataset_mapping) = 7%nat /\ NoDup (keys dataset_mapping)
  /\ (~ In dataset_id (keys dataset_mapping) ->
      load_dataset w dataset_id = Raises (FileNotFoundError dataset_id))
  /\ (forall name,
        assoc dataset_id dataset_mapping = Some name ->
        path_exists w (DATA_DIR w ++ "/" ++ name) = false ->
        load_dataset w dataset_id = Raises (FileNotFoundError (DATA_DIR w ++ "/" ++ name)))
  /\ (forall name,
        assoc dataset_id dataset_mapping = Some name ->
        path_exists w (DATA_DIR w ++ "/" ++ name) = true ->
        (forall df, read_csv w (DATA_DIR w ++ "/" ++ name) = Returns df ->
                    load_dataset w dataset_id = Returns (transform_of dataset_id df))
        /\ (forall e, read_csv w (DATA_DIR w ++ "/" ++ name) = Raises e ->
                      load_dataset w dataset_id = Raises e)).
Proof.
  split; [reflexivity|]. split.
  { unfold keys, dataset_mapping. cbn [map fst].
    repeat (constructor; [cbn [In]; intros H;
      repeat (destruct H as [H|H]; [discriminate H|]); exact H|]).
    constructor. }
  split; [|split].
  - intros H. apply assoc_None_key in H. unfold load_dataset. rewrite H. reflexivity.
  - intros name Ha He. unfold load_dataset. rewrite Ha. cbv zeta. rewrite He. reflexivity.
  - intros name Ha He. rewrite (load_dataset_found w _ _ Ha He).
    split; [intros df -> | intros e ->]; reflexivity.
Qed.

(** C1, a concrete run: the treatment-gap dataset in a world whose files
    all hold the sample frame. *)
Lemma load_dataset_outcome_witness :
  assoc "anxiety-treatment-gap" dataset_mapping = Some "5- anxiety-disorders-treatment-gap.csv"
  /\ load_dataset sample_world "anxiety-treatment-gap" =
     Returns {| columns := ["Entity"; "Code"; "Year"; "Untreated"];
                rows := [brazil_2015; france_2020; africa_2018; chile_2020] |}.
Proof.
  split; [reflexivity|].
  destruct (load_dataset_outcome sample_world "anxiety-treatment-gap") as (_ & _ & _ & _ & H).
  destruct (H _ eq_refl eq_refl) as [Hr _].
  rewrite (Hr sample_frame eq_refl). reflexivity.
Defined.

(** C1, counterexample: the identifier is in the mapping and its file
    exists, but the file is empty; the CSV reader raises EmptyDataError and so
    does the loader. *)
Lemma load_dataset_empty_file :
  In "countries-with-data" (keys dataset_mapping)
  /\ (forall p, path_exists empty_files_world p = true)
  /\ load_dataset empty_files_world "countries-with-data" = Raises EmptyDataError.
Proof. split; [simpl; tauto|]. split; [reflexivity | reflexivity]. Qed.

Example load_dataset_unknown :
  load_dataset sample_world "nonexistent-id" = Raises (FileNotFoundError "nonexistent-id").
Proof. reflexivity. Qed.

(** * Further properties of the loader, the renames and the filters *)

(** ** Lists and masks *)

Section MoreMasks.

Context {A : Type}.

Lemma filter_filter_comm (p q : A -> bool) (xs : list A) :
  filter p (filter q xs) = filter q (filter p xs).
Proof.
  induction xs as [|x xs IH]; simpl; [reflexivity|].
  destruct (p x) eqn:Hp, (q x) eqn:Hq; simpl; rewrite ?Hp, ?Hq, IH; reflexivity.
Qed.

Lemma filter_filter_implied (p q : A -> bool) (xs : list A) :
  (forall x, In x xs -> q x = true -> p x = true) ->
  filter p (filter q xs) = filter q xs.
Proof.
  induction xs as [|x xs IH]; intros H; simpl; [reflexivity|].
  assert (IH' : filter p (filter q xs) = filter q xs)
    by (apply IH; intros y Hy; apply H; right; exact Hy).
  destruct (q x) eqn:Hq; simpl; [|exact IH'].
  rewrite (H x (or_introl eq_refl) Hq), IH'. reflexivity.
Qed.

Lemma filter_filter_exclusive (p q : A -> bool) (xs : list A) :
  (forall x, In x xs -> q x = true -> p x = false) ->
  filter p (filter q xs) = [].
Proof.
  induction xs as [|x xs IH]; intros H; simpl; [reflexivity|].
  assert (IH' : filter p (filter q xs) = [])
    by (apply IH; intros y Hy; apply H; right; exact Hy).
  destruct (q x) eqn:Hq; simpl; [|exact IH'].
  rewrite (H x (or_introl eq_refl) Hq). exact IH'.
Qed.

Lemma filter_all (p : A -> bool) (xs : list A) :
  (forall x, In x xs -> p x = true) -> filter p xs = xs.
Proof.
  induction xs as [|x xs IH]; intros H; simpl; [reflexivity|].
  rewrite (H x (or_introl eq_refl)), IH; [reflexivity|].
  intros y Hy. apply H. right. exact Hy.
Qed.

End MoreMasks.

Lemma rows_where_comm p q df :
  rows_where p (rows_where q df) = rows_where q (rows_where p df).
Proof. unfold rows_where. simpl. rewrite filter_filter_comm. reflexivity. Qed.

Lemma rows_where_all p df :
  (forall r, In r (rows df) -> p r = true) -> rows_where p df = df.
Proof.
  intros H. unfold rows_where. rewrite (filter_all _ _ H). destruct df; reflexivity.
Qed.

Lemma numeric_column_rows_where p df j :
  numeric_column df j -> numeric_column (rows_where p df) j.
Proof.
  unfold numeric_column. rewrite !Forall_forall. intros H r Hr.
  apply filter_In in Hr. apply H. exact (proj1 Hr).
Qed.

(** [s >= y] raises TypeError as soon as the series holds a text cell, and
    otherwise tests every cell. *)
Lemma ge_scalar_spec (col : list value) (y : Z) :
  Frame.ge_scalar col y =
  if existsb is_text col then Raises TypeError else Returns (map (at_least y) col).
Proof.
  induction col as [|v col IH]; simpl; [reflexivity|].
  rewrite IH. destruct v as [z|s|]; simpl; try reflexivity;
    destruct (existsb is_text col); reflexivity.
Qed.

Lemma numeric_column_no_text df j :
  numeric_column df j <-> existsb is_text (map (Frame.cell j) (rows df)) = false.
Proof.
  unfold numeric_column. induction (rows df) as [|r rs IH]; simpl.
  - split; [reflexivity | constructor].
  - rewrite orb_false_iff, <- IH. split.
    + inversion 1 as [|? ? Hr Hrs]; subst. split; [|exact Hrs].
      destruct (Frame.cell j r) as [z|s|]; try reflexivity.
      exfalso. exact (Hr s eq_refl).
    + intros [Hr Hrs]. constructor; [|exact Hrs].
      intros s E. rewrite E in Hr. discriminate Hr.
Qed.

(** The body shared by the periods "recent" and "decade": the rows from
    year [y] on. *)
Lemma period_body_on_column (y : Z) df j :
  column_at df "Year" j ->
  (col <- Frame.getitem df "Year" ;;
   mask <- Frame.ge_scalar col y ;;
   Returns (Frame.getitem_mask df mask))
  = if existsb is_text (map (Frame.cell j) (rows df))
    then Raises TypeError
    else Returns (rows_where (fun r => at_least y (Frame.cell j r)) df).
Proof.
  intros Hc. rewrite (getitem_column_at _ _ _ Hc). cbn [bind].
  rewrite ge_scalar_spec.
  destruct (existsb is_text (map (Frame.cell j) (rows df))); [reflexivity|].
  cbn [bind]. unfold Frame.getitem_mask, rows_where. f_equal. f_equal.
  rewrite map_map. apply select_map.
Qed.

Lemma filter_by_period_recent df :
  filter_by_period df "recent" =
  (col <- Frame.getitem df "Year" ;;
   mask <- Frame.ge_scalar col 2018 ;;
   Returns (Frame.getitem_mask df mask)).
Proof. reflexivity. Qed.

Lemma filter_by_period_decade df :
  filter_by_period df "decade" =
  (col <- Frame.getitem df "Year" ;;
   mask <- Frame.ge_scalar col 2013 ;;
   Returns (Frame.getitem_mask df mask)).
Proof. reflexivity. Qed.

Lemma filter_by_year_number df year :
  filter_by_year df year =
  (y <- year_number year ;; filter_by_year df (YInt y)).
Proof.
  unfold filter_by_year, year_number.
  destruct year as [y|s]; [reflexivity|].
  destruct (PyInt.int_of_str s); reflexivity.
Qed.

(** ** The filters, by the number of columns that carry their label *)

Lemma filter_by_year_cases df y :
  filter_by_year df (YInt y) =
  match Frame.positions "Year" (columns df) 0 with
  | [] => Raises (KeyError "Year")
  | [j] => Returns (rows_where (fun r => Frame.value_eq y (Frame.cell j r)) df)
  | _ :: _ :: _ => Unmodelled
  end.
Proof.
  destruct (Frame.positions "Year" (columns df) 0) as [|j [|j' js]] eqn:Hp.
  - unfold filter_by_year, Frame.getitem. rewrite Hp. reflexivity.
  - apply filter_by_year_int. exact Hp.
  - unfold filter_by_year, Frame.getitem. rewrite Hp. reflexivity.
Qed.

Lemma filter_by_region_cases df region codes :
  assoc region region_codes = Some codes ->
  filter_by_region df region =
  match Frame.positions "Code" (columns df) 0 with
  | [] => Raises (KeyError "Code")
  | [j] => Returns (rows_where (fun r => Frame.value_in codes (Frame.cell j r)) df)
  | _ :: _ :: _ => Unmodelled
  end.
Proof.
  intros Ha.
  destruct (Frame.positions "Code" (columns df) 0) as [|j [|j' js]] eqn:Hp.
  - rewrite (filter_by_region_codes _ _ _ Ha). unfold Frame.getitem. rewrite Hp. reflexivity.
  - apply filter_by_region_on_column; assumption.
  - rewrite (filter_by_region_codes _ _ _ Ha). unfold Frame.getitem. rewrite Hp. reflexivity.
Qed.

Lemma filter_by_region_other df region :
  (region =? "global")%string = true \/ assoc region region_codes = None ->
  filter_by_region df region = Returns df.
Proof.
  unfold filter_by_region. intros [-> | H]; [reflexivity|].
  rewrite H. destruct (region =? "global")%string; reflexivity.
Qed.

Lemma period_body_cases (y : Z) df :
  (col <- Frame.getitem df "Year" ;;
   mask <- Frame.ge_scalar col y ;;
   Returns (Frame.getitem_mask df mask))
  = match Frame.positions "Year" (columns df) 0 with
    | [] => Raises (KeyError "Year")
    | [j] => if existsb is_text (map (Frame.cell j) (rows df))
             then Raises TypeError
             else Returns (rows_where (fun r => at_least y (Frame.cell j r)) df)
    | _ :: _ :: _ => Unmodelled
    end.
Proof.
  destruct (Frame.positions "Year" (columns df) 0) as [|j [|j' js]] eqn:Hp.
  - unfold Frame.getitem. rewrite Hp. reflexivity.
  - apply period_body_on_column. exact Hp.
  - unfold Frame.getitem. rewrite Hp. reflexivity.
Qed.

Lemma no_text_rows_where p df j :
  existsb is_text (map (Frame.cell j) (rows df)) = false ->
  existsb is_text (map (Frame.cell j) (rows (rows_where p df))) = false.
Proof.
  intros H. apply numeric_column_no_text. apply numeric_column_rows_where.
  apply numeric_column_no_text. exact H.
Qed.

(** ** Filtering twice *)

(** X1. Filtering by a year twice is filtering once, for every frame and
    every year argument, text or integer: the second call, run on what the
    first returns, gives the outcome of the first. *)
Theorem filter_by_year_idempotent (df : DataFrame) (year : year_arg) :
  (d <- filter_by_year df year ;; filter_by_year d year) = filter_by_year df year.
Proof.
  pose proof (fun d => filter_by_year_number d year) as H.
  destruct (year_number year) as [y| |]; cbn [bind] in H;
    [|rewrite (H df); reflexivity ..].
  rewrite (H df), filter_by_year_cases.
  destruct (Frame.positions "Year" (columns df) 0) as [|j [|j' js]] eqn:Hp;
    try reflexivity.
  cbn [bind]. rewrite H, filter_by_year_cases. cbn [columns rows_where].
  rewrite Hp. rewrite rows_where_twice. reflexivity.
Qed.

Lemma period_body_twice (y : Z) df :
  (d <- (col <- Frame.getitem df "Year" ;;
         mask <- Frame.ge_scalar col y ;;
         Returns (Frame.getitem_mask df mask)) ;;
   col <- Frame.getitem d "Year" ;;
   mask <- Frame.ge_scalar col y ;;
   Returns (Frame.getitem_mask d mask))
  = (col <- Frame.getitem df "Year" ;;
     mask <- Frame.ge_scalar col y ;;
     Returns (Frame.getitem_mask df mask)).
Proof.
  rewrite (period_body_cases y df).
  destruct (Frame.positions "Year" (columns df) 0) as [|j [|j' js]] eqn:Hp;
    try reflexivity.
  destruct (existsb is_text (map (Frame.cell j) (rows df))) eqn:Ht; [reflexivity|].
  cbn [bind]. rewrite period_body_cases. cbn [columns rows_where]. rewrite Hp.
  change (filter (fun r => at_least y (Frame.cell j r)) (rows df))
    with (rows (rows_where (fun r => at_least y (Frame.cell j r)) df)).
  rewrite (no_text_rows_where _ _ _ Ht).
  change {| columns := columns df;
            rows := rows (rows_where (fun r => at_least y (Frame.cell j r)) df) |}
    with (rows_where (fun r => at_least y (Frame.cell j r)) df).
  rewrite rows_where_twice. reflexivity.
Qed.

(** X2. Filtering by a period twice is filtering once, for every frame and
    every period string: the second call, run on what the first returns,
    gives the outcome of the first. *)
Theorem filter_by_period_idempotent (df : DataFrame) (period : string) :
  (d <- filter_by_period df period ;; filter_by_period d period)
  = filter_by_period df period.
Proof.
  destruct (String.eqb_spec period "recent") as [->|Hr].
  { apply (period_body_twice 2018). }
  destruct (String.eqb_spec period "decade") as [->|Hd].
  { apply (period_body_twice 2013). }
  apply String.eqb_neq in Hr, Hd.
  unfold filter_by_period at 2 3. rewrite Hr, Hd.
  destruct (period =? "all")%string eqn:Ha; cbn [bind];
    unfold filter_by_period; rewrite Ha, ?Hr, ?Hd; reflexivity.
Qed.

(** ** One filter after another *)

Lemma at_least_weaken (y y' : Z) (v : value) :
  y' <= y -> at_least y v = true -> at_least y' v = true.
Proof.
  intros Hy. destruct v as [z|s|]; simpl; try discriminate.
  rewrite !Z.leb_le. lia.
Qed.

Lemma period_body_narrow (y y' : Z) df :
  y' <= y ->
  (d <- (col <- Frame.getitem df "Year" ;;
         mask <- Frame.ge_scalar col y' ;;
         Returns (Frame.getitem_mask df mask)) ;;
   col <- Frame.getitem d "Year" ;;
   mask <- Frame.ge_scalar col y ;;
   Returns (Frame.getitem_mask d mask))
  = (col <- Frame.getitem df "Year" ;;
     mask <- Frame.ge_scalar col y ;;
     Returns (Frame.getitem_mask df mask)).
Proof.
  intros Hy. rewrite (period_body_cases y' df), (period_body_cases y df).
  destruct (Frame.positions "Year" (columns df) 0) as [|j [|j' js]] eqn:Hp;
    try reflexivity.
  destruct (existsb is_text (map (Frame.cell j) (rows df))) eqn:Ht; [reflexivity|].
  cbn [bind]. rewrite period_body_cases. cbn [columns rows_where]. rewrite Hp.
  change (filter (fun r => at_least y' (Frame.cell j r)) (rows df))
    with (rows (rows_where (fun r => at_least y' (Frame.cell j r)) df)).
  rewrite (no_text_rows_where _ _ _ Ht).
  unfold rows_where. cbn [rows columns]. f_equal. f_equal.
  rewrite filter_filter_comm. apply filter_filter_implied.
  intros r _. apply at_least_weaken. exact Hy.
Qed.

(** X3. The last five years lie within the last decade: "recent" applied
    to what "decade" returns gives the outcome of "recent" on the frame
    itself, and so does "decade" applied to what "recent" returns. *)
Theorem recent_within_decade (df : DataFrame) :
  (d <- filter_by_period df "decade" ;; filter_by_period d "recent")
  = filter_by_period df "recent"
  /\ (d <- filter_by_period df "recent" ;; filter_by_period d "decade")
     = filter_by_period df "recent".
Proof.
  split.
  - apply (period_body_narrow 2018 2013). lia.
  - change ((d <- filter_by_period df "recent" ;;
             col <- Frame.getitem d "Year" ;;
             mask <- Frame.ge_scalar col 2013 ;;
             Returns (Frame.getitem_mask d mask)) = filter_by_period df "recent").
    rewrite filter_by_period_recent, (period_body_cases 2018 df).
    destruct (Frame.positions "Year" (columns df) 0) as [|j [|j' js]] eqn:Hp;
      try reflexivity.
    destruct (existsb is_text (map (Frame.cell j) (rows df))) eqn:Ht; [reflexivity|].
    cbn [bind]. rewrite period_body_cases. cbn [columns rows_where]. rewrite Hp.
    change (filter (fun r => at_least 2018 (Frame.cell j r)) (rows df))
      with (rows (rows_where (fun r => at_least 2018 (Frame.cell j r)) df)).
    rewrite (no_text_rows_where _ _ _ Ht).
    unfold rows_where. cbn [rows columns]. f_equal. f_equal.
    apply filter_filter_implied.
    intros r _. apply at_least_weaken. lia.
Qed.

Lemma year_rows_no_text y j df :
  existsb is_text
    (map (Frame.cell j)
         (rows (rows_where (fun r => Frame.value_eq y (Frame.cell j r)) df)))
  = false.
Proof.
  unfold rows_where. cbn [rows].
  induction (rows df) as [|r rs IH]; simpl; [reflexivity|].
  destruct (Frame.cell j r) as [z|s|] eqn:Hc; simpl; try exact IH.
  destruct (z =? y); simpl; [rewrite Hc; simpl|]; exact IH.
Qed.

Lemma year_then_period_body (y y' : Z) df :
  (d <- filter_by_year df (YInt y) ;;
   col <- Frame.getitem d "Year" ;;
   mask <- Frame.ge_scalar col y' ;;
   Returns (Frame.getitem_mask d mask))
  = if y' <=? y then filter_by_year df (YInt y)
    else (d <- filter_by_year df (YInt y) ;; Returns (no_rows d)).
Proof.
  rewrite filter_by_year_cases.
  destruct (Frame.positions "Year" (columns df) 0) as [|j [|j' js]] eqn:Hp;
    try (destruct (y' <=? y); reflexivity).
  cbn [bind]. rewrite period_body_cases. cbn [columns rows_where]. rewrite Hp.
  rewrite year_rows_no_text.
  unfold rows_where, no_rows. cbn [rows columns].
  destruct (Z.leb_spec y' y) as [Hy|Hy]; f_equal; f_equal.
  - apply filter_filter_implied. intros r _ Hr.
    apply value_eq_iff in Hr. rewrite Hr. simpl. apply Z.leb_le. exact Hy.
  - apply filter_filter_exclusive. intros r _ Hr.
    apply value_eq_iff in Hr. rewrite Hr. simpl. apply Z.leb_gt. exact Hy.
Qed.

(** X4. A year filter followed by a period filter never raises TypeError,
    even on a frame whose Year column holds text elsewhere: for a year from
    2018 on, "recent" after the year filter changes nothing, and for an
    earlier year it leaves the columns and no row; "decade" does the same
    around 2013. *)
Theorem year_then_period (df : DataFrame) (y : Z) :
  (d <- filter_by_year df (YInt y) ;; filter_by_period d "recent")
  = (if 2018 <=? y then filter_by_year df (YInt y)
     else (d <- filter_by_year df (YInt y) ;; Returns (no_rows d)))
  /\ (d <- filter_by_year df (YInt y) ;; filter_by_period d "decade")
     = (if 2013 <=? y then filter_by_year df (YInt y)
        else (d <- filter_by_year df (YInt y) ;; Returns (no_rows d))).
Proof.
  split; [apply (year_then_period_body y 2018) | apply (year_then_period_body y 2013)].
Qed.

(** X5. Two different years select no common row: on a frame with a Year
    column, filtering by one year and then by another returns the columns
    with no row. *)
Theorem filter_by_year_distinct (df : DataFrame) (j : nat) (y1 y2 : Z) :
  column_at df "Year" j -> y1 <> y2 ->
  (d <- filter_by_year df (YInt y1) ;; filter_by_year d (YInt y2))
  = Returns (no_rows df).
Proof.
  intros Hc Hy. rewrite (filter_by_year_int df y1 j Hc). cbn [bind].
  rewrite (filter_by_year_int _ y2 j (column_at_rows_where _ _ _ _ Hc)).
  unfold rows_where, no_rows. cbn [rows columns]. f_equal. f_equal.
  apply filter_filter_exclusive. intros r _ Hr.
  apply value_eq_iff in Hr. rewrite Hr. simpl. apply Z.eqb_neq. exact Hy.
Qed.

(** X5, a concrete run: 2020, then 2018, on the sample frame. *)
Lemma filter_by_year_distinct_witness :
  column_at sample_frame "Year" 2 /\ 2020 <> 2018
  /\ (d <- filter_by_year sample_frame (YInt 2020) ;; filter_by_year d (YInt 2018))
     = Returns empty_frame.
Proof.
  split; [reflexivity|]. split; [discriminate|].
  apply (filter_by_year_distinct sample_frame 2 2020 2018); [reflexivity | discriminate].
Defined.

(** X6. On a frame with a Year column, the periods "recent" and "decade"
    raise TypeError exactly when a cell of that column is text, and return a
    frame otherwise; the year filter returns a frame in both cases. *)
Theorem filter_by_period_text (df : DataFrame) (j : nat) :
  column_at df "Year" j ->
  (~ numeric_column df j ->
     filter_by_period df "recent" = Raises TypeError
     /\ filter_by_period df "decade" = Raises TypeError)
  /\ (numeric_column df j ->
     (exists d, filter_by_period df "recent" = Returns d)
     /\ (exists d, filter_by_period df "decade" = Returns d))
  /\ (forall y, exists d, filter_by_year df (YInt y) = Returns d).
Proof.
  intros Hc.
  rewrite filter_by_period_recent, filter_by_period_decade.
  rewrite !(period_body_on_column _ df j Hc).
  split; [|split].
  - intros Hn.
    destruct (existsb is_text (map (Frame.cell j) (rows df))) eqn:Ht; [auto|].
    exfalso. apply Hn. apply numeric_column_no_text. exact Ht.
  - intros Hn. apply numeric_column_no_text in Hn. rewrite Hn. eauto.
  - intros y. rewrite (filter_by_year_int df y j Hc). eauto.
Qed.

(** X6, a concrete run: a frame whose second row has the year "n/a". *)
Lemma filter_by_period_text_witness :
  column_at text_year_frame "Year" 1 /\ ~ numeric_column text_year_frame 1
  /\ filter_by_period text_year_frame "recent" = Raises TypeError
  /\ filter_by_period text_year_frame "decade" = Raises TypeError.
Proof.
  assert (Hn : ~ numeric_column text_year_frame 1).
  { intros H. apply numeric_column_no_text in H. discriminate H. }
  split; [reflexivity|]. split; [exact Hn|].
  apply (proj1 (filter_by_period_text text_year_frame 1 eq_refl)). exact Hn.
Defined.

(** ** The filters as row tests *)

Lemma filter_by_region_keep df region j :
  column_at df "Code" j ->
  exists keep, forall d,
    columns d = columns df -> filter_by_region d region = Returns (rows_where keep d).
Proof.
  intros Hc.
  destruct (assoc region region_codes) as [codes|] eqn:Ha.
  - exists (fun r => Frame.value_in codes (Frame.cell j r)). intros d Hd.
    apply filter_by_region_on_column; [exact Ha|].
    unfold column_at. rewrite Hd. exact Hc.
  - exists (fun _ => true). intros d _.
    rewrite rows_where_all by reflexivity.
    apply filter_by_region_other. right. exact Ha.
Qed.

Lemma filter_by_year_keep df y k :
  column_at df "Year" k ->
  forall d, columns d = columns df ->
    filter_by_year d (YInt y) =
    Returns (rows_where (fun r => Frame.value_eq y (Frame.cell k r)) d).
Proof.
  intros Hc d Hd. apply filter_by_year_int. unfold column_at. rewrite Hd. exact Hc.
Qed.

Lemma filter_by_period_keep df period k :
  column_at df "Year" k ->
  exists keep, forall d,
    columns d = columns df -> numeric_column d k ->
    filter_by_period d period = Returns (rows_where keep d).
Proof.
  intros Hc.
  assert (B : forall y d, columns d = columns df -> numeric_column d k ->
    (col <- Frame.getitem d "Year" ;;
     mask <- Frame.ge_scalar col y ;;
     Returns (Frame.getitem_mask d mask))
    = Returns (rows_where (fun r => at_least y (Frame.cell k r)) d)).
  { intros y d Hd Hn. apply filter_by_period_from; [|exact Hn].
    unfold column_at. rewrite Hd. exact Hc. }
  destruct (String.eqb_spec period "recent") as [->|Hr].
  { eexists. intros d Hd Hn. apply (B 2018 d Hd Hn). }
  destruct (String.eqb_spec period "decade") as [->|Hd'].
  { eexists. intros d Hd Hn. apply (B 2013 d Hd Hn). }
  exists (fun _ => true). intros d _ _.
  rewrite rows_where_all by reflexivity.
  apply String.eqb_neq in Hr, Hd'. unfold filter_by_period. rewrite Hr, Hd'.
  destruct (period =? "all")%string; reflexivity.
Qed.

(** X7. The region filter and the year filter commute on a frame that has
    a Code and a Year column: either order gives the same outcome, for every
    region string and every year argument (a year text that is no integer
    raises ValueError in both orders). *)
Theorem region_year_commute (df : DataFrame) (j k : nat)
    (region : string) (year : year_arg) :
  column_at df "Code" j -> column_at df "Year" k ->
  (d <- filter_by_region df region ;; filter_by_year d year)
  = (d <- filter_by_year df year ;; filter_by_region d region).
Proof.
  intros Hj Hk.
  destruct (filter_by_region_keep df region j Hj) as [keep Hreg].
  pose proof (filter_by_year_keep df) as Hyear.
  rewrite (Hreg df eq_refl). cbn [bind].
  rewrite !filter_by_year_number.
  destruct (year_number year) as [y| |]; cbn [bind]; try reflexivity.
  rewrite (Hyear y k Hk df eq_refl), (Hyear y k Hk (rows_where keep df) eq_refl).
  cbn [bind]. rewrite (Hreg (rows_where _ df) eq_refl).
  rewrite rows_where_comm. reflexivity.
Qed.

(** X7, a concrete run: Europe and "2020" on the sample frame, in both
    orders. *)
Lemma region_year_commute_witness :
  column_at sample_frame "Code" 1 /\ column_at sample_frame "Year" 2
  /\ (d <- filter_by_region sample_frame "europe" ;; filter_by_year d (YStr "2020"))
     = (d <- filter_by_year sample_frame (YStr "2020") ;; filter_by_region d "europe")
  /\ (d <- filter_by_year sample_frame (YStr "2020") ;; filter_by_region d "europe")
     = Returns {| columns := sample_columns; rows := [france_2020] |}.
Proof.
  split; [reflexivity|]. split; [reflexivity|]. split; [|reflexivity].
  apply (region_year_commute sample_frame 1 2); reflexivity.
Defined.

(** X8. On a frame whose Year column holds no text, the period filter
    commutes with the region filter and with the year filter: either order
    gives the same outcome. *)
Theorem period_commutes (df : DataFrame) (j k : nat)
    (region period : string) (year : year_arg) :
  column_at df "Code" j -> column_at df "Year" k -> numeric_column df k ->
  (d <- filter_by_region df region ;; filter_by_period d period)
  = (d <- filter_by_period df period ;; filter_by_region d region)
  /\ (d <- filter_by_year df year ;; filter_by_period d period)
     = (d <- filter_by_period df period ;; filter_by_year d year).
Proof.
  intros Hj Hk Hn.
  destruct (filter_by_region_keep df region j Hj) as [keep Hreg].
  destruct (filter_by_period_keep df period k Hk) as [keep' Hper].
  pose proof (filter_by_year_keep df) as Hyear.
  rewrite (Hper df eq_refl Hn). cbn [bind]. split.
  - rewrite (Hreg df eq_refl), (Hreg (rows_where keep' df) eq_refl). cbn [bind].
    rewrite (Hper (rows_where keep df) eq_refl (numeric_column_rows_where _ _ _ Hn)).
    rewrite rows_where_comm. reflexivity.
  - rewrite !filter_by_year_number.
    destruct (year_number year) as [y| |]; cbn [bind]; try reflexivity.
    rewrite (Hyear y k Hk df eq_refl), (Hyear y k Hk (rows_where keep' df) eq_refl).
    cbn [bind].
    rewrite (Hper (rows_where _ df) eq_refl (numeric_column_rows_where _ _ _ Hn)).
    rewrite rows_where_comm. reflexivity.
Qed.

(** X8, a concrete run: "recent" and the Americas on the sample frame. *)
Lemma period_commutes_witness :
  column_at sample_frame "Code" 1 /\ column_at sample_frame "Year" 2
  /\ numeric_column sample_frame 2
  /\ (d <- filter_by_region sample_frame "americas" ;; filter_by_period d "recent")
     = (d <- filter_by_period sample_frame "recent" ;; filter_by_region d "americas")
  /\ (d <- filter_by_period sample_frame "recent" ;; filter_by_region d "americas")
     = Returns {| columns := sample_columns; rows := [chile_2020] |}.
Proof.
  assert (Hn : numeric_column sample_frame 2)
    by (repeat constructor; intros s; discriminate).
  split; [reflexivity|]. split; [reflexivity|]. split; [exact Hn|].
  split; [|reflexivity].
  apply (proj1 (period_commutes sample_frame 1 2 "americas" "recent" (YInt 0)
                  eq_refl eq_refl Hn)).
Defined.

(** ** Regions do not overlap *)

Lemma assoc_In {A : Type} (k : string) (d : list (string * A)) (a : A) :
  assoc k d = Some a -> In (k, a) d.
Proof.
  induction d as [|[k' a'] d IH]; simpl; [discriminate|].
  destruct (String.eqb_spec k k') as [->|_].
  - intros [= ->]. left. reflexivity.
  - intros H. right. apply IH. exact H.
Qed.

Lemma disjointb_spec xs ys s :
  disjointb xs ys = true ->
  existsb (String.eqb s) xs = true -> existsb (String.eqb s) ys = false.
Proof.
  unfold disjointb. intros Hd Hx.
  apply existsb_exists in Hx. destruct Hx as (x & Hin & E).
  apply String.eqb_eq in E. subst x.
  rewrite forallb_forall in Hd. apply Hd in Hin.
  apply negb_true_iff in Hin. exact Hin.
Qed.

Lemma region_codes_disjoint r1 c1 r2 c2 :
  assoc r1 region_codes = Some c1 -> assoc r2 region_codes = Some c2 ->
  r1 <> r2 -> disjointb c1 c2 = true.
Proof.
  intros H1 H2 Hne. apply assoc_In in H1, H2.
  assert (T : forallb (fun e1 : string * list string =>
               forallb (fun e2 : string * list string =>
                 (fst e1 =? fst e2)%string || disjointb (snd e1) (snd e2))
               region_codes) region_codes = true) by (vm_compute; reflexivity).
  rewrite forallb_forall in T. specialize (T _ H1).
  rewrite forallb_forall in T. specialize (T _ H2). cbn [fst snd] in T.
  apply String.eqb_neq in Hne. rewrite Hne in T. exact T.
Qed.

(** X9. No country code belongs to two regions: on a frame with a Code
    column, filtering by one of the five regions and then by another of them
    returns the columns with no row. *)
Theorem filter_by_region_distinct (df : DataFrame) (j : nat)
    (r1 r2 : string) (c1 c2 : list string) :
  column_at df "Code" j ->
  assoc r1 region_codes = Some c1 -> assoc r2 region_codes = Some c2 -> r1 <> r2 ->
  (d <- filter_by_region df r1 ;; filter_by_region d r2) = Returns (no_rows df).
Proof.
  intros Hc H1 H2 Hne.
  rewrite (filter_by_region_on_column df r1 c1 j H1 Hc). cbn [bind].
  rewrite (filter_by_region_on_column _ r2 c2 j H2 (column_at_rows_where _ _ _ _ Hc)).
  unfold rows_where, no_rows. cbn [rows columns]. f_equal. f_equal.
  apply filter_filter_exclusive. intros r _ Hr.
  destruct (Frame.cell j r) as [z|s|]; try reflexivity. simpl in *.
  apply (disjointb_spec c1 c2 s); [|exact Hr].
  apply (region_codes_disjoint r1 c1 r2 c2); assumption.
Qed.

(** X9, a concrete run: the Americas, then Europe, on the sample frame. *)
Lemma filter_by_region_distinct_witness :
  column_at sample_frame "Code" 1
  /\ (d <- filter_by_region sample_frame "americas" ;; filter_by_region d "europe")
     = Returns empty_frame.
Proof.
  split; [reflexivity|].
  apply (filter_by_region_distinct sample_frame 1 "americas" "europe" _ _
           eq_refl eq_refl eq_refl).
  discriminate.
Defined.

(** ** Frames without rows *)

Lemma no_rows_self df : rows df = [] -> no_rows df = df.
Proof. destruct df as [cols rs]. simpl. intros ->. reflexivity. Qed.

Lemma rows_where_no_rows p df : rows df = [] -> rows_where p df = df.
Proof. intros H. apply rows_where_all. rewrite H. intros r []. Qed.

(** X10. A frame that has the columns Code and Year but no row passes
    through every filter unchanged: no region, year or period makes a filter
    raise on it, except a year text that is no integer. *)
Theorem filters_on_no_rows (df : DataFrame) (j k : nat) :
  rows df = [] -> column_at df "Code" j -> column_at df "Year" k ->
  (forall region, filter_by_region df region = Returns df)
  /\ (forall y, filter_by_year df (YInt y) = Returns df)
  /\ (forall s, filter_by_year df (YStr s) = Returns df
                \/ filter_by_year df (YStr s) = Raises ValueError)
  /\ (forall period, filter_by_period df period = Returns df).
Proof.
  intros Hr Hj Hk.
  assert (Hn : numeric_column df k) by (unfold numeric_column; rewrite Hr; constructor).
  assert (Hy : forall y, filter_by_year df (YInt y) = Returns df).
  { intros y. rewrite (filter_by_year_keep df y k Hk df eq_refl).
    rewrite (rows_where_no_rows _ _ Hr). reflexivity. }
  split; [|split; [exact Hy|split]].
  - intros region. destruct (filter_by_region_keep df region j Hj) as [keep H].
    rewrite (H df eq_refl), (rows_where_no_rows _ _ Hr). reflexivity.
  - intros s. rewrite filter_by_year_number. cbn [year_number].
    destruct (int_of_str_outcome s) as [[z ->] | ->]; cbn [bind]; auto.
  - intros period. destruct (filter_by_period_keep df period k Hk) as [keep H].
    rewrite (H df eq_refl Hn), (rows_where_no_rows _ _ Hr). reflexivity.
Qed.

(** X10, a concrete run: the sample columns without rows. *)
Lemma filters_on_no_rows_witness :
  rows empty_frame = [] /\ column_at empty_frame "Code" 1 /\ column_at empty_frame "Year" 2
  /\ filter_by_region empty_frame "asia" = Returns empty_frame
  /\ filter_by_period empty_frame "decade" = Returns empty_frame.
Proof.
  destruct (filters_on_no_rows empty_frame 1 2 eq_refl eq_refl eq_refl)
    as (Hreg & _ & _ & Hper).
  split; [reflexivity|]. split; [reflexivity|]. split; [reflexivity|].
  split; [apply Hreg | apply Hper].
Defined.

(** ** The burden transform removes its marker *)

Section TitleCase.

Ltac ascii_cases c := destruct c as [[] [] [] [] [] [] [] []].

Lemma title_D_cased (b : bool) (c : ascii) :
  ("D" =? (if b then Str.to_lower c else Str.to_upper c))%char = true ->
  Str.is_cased c = true.
Proof. destruct b; ascii_cases c; vm_compute; intros H; try discriminate H; reflexivity. Qed.

Lemma to_lower_not_A (c : ascii) : ("A" =? Str.to_lower c)%char = false.
Proof. ascii_cases c; reflexivity. Qed.

(** A pattern that starts with "DA" occurs nowhere in a title-cased text
    followed by "DALYs", unless it occurs in "DALYs": title case never puts
    a capital right after a letter. *)
Lemma title_DALYs_free (p' x : string) (b : bool) :
  Str.contains (String "D" (String "A" p')) "DALYs" = false ->
  Str.contains (String "D" (String "A" p')) (Str.title_from b x ++ "DALYs") = false.
Proof.
  intros H0. revert b. induction x as [|c x IH]; intros b; [exact H0|].
  cbn [Str.title_from append].
  set (o := if b then Str.to_lower c else Str.to_upper c).
  change (Str.startswith
            (String o (Str.title_from (Str.is_cased c) x ++ "DALYs"))
            (String "D" (String "A" p'))
          || Str.contains (String "D" (String "A" p'))
               (Str.title_from (Str.is_cased c) x ++ "DALYs") = false).
  rewrite IH, orb_false_r. cbn [Str.startswith].
  destruct ("D" =? o)%char eqn:Ho; [|reflexivity].
  rewrite (title_D_cased b c Ho). cbn [andb].
  destruct x as [|c' x]; [reflexivity|].
  cbn [Str.title_from append]. rewrite to_lower_not_A. reflexivity.
Qed.

End TitleCase.

Lemma burden_name_free (c : string) : Str.contains burden_marker (burden_name c) = false.
Proof. unfold burden_name, Str.title. apply title_DALYs_free. reflexivity. Qed.

Lemma burden_label_free (c : string) : Str.contains burden_marker (burden_label c) = false.
Proof.
  unfold burden_label. destruct (Str.contains burden_marker c) eqn:H;
    [apply burden_name_free | exact H].
Qed.

Lemma process_burden_data_relabel df : process_burden_data df = relabel burden_label df.
Proof. apply process_burden_data_eq. Qed.

(** X11. After the burden transform no column name contains
    "DALYsrateSexBothAgeAgestandardizedCause", whatever the names were
    before. *)
Theorem burden_marker_removed (df : DataFrame) (c : string) :
  In c (columns (process_burden_data df)) ->
  Str.contains "DALYsrateSexBothAgeAgestandardizedCause" c = false.
Proof.
  rewrite process_burden_data_relabel. cbn [columns relabel]. intros H.
  apply in_map_iff in H. destruct H as (c0 & <- & _). apply burden_label_free.
Qed.

(** X11, a concrete run: the burden column of [burden_frame]. *)
Lemma burden_marker_removed_witness :
  In "DepressivedisordersDALYs" (columns (process_burden_data burden_frame))
  /\ Str.contains "DALYsrateSexBothAgeAgestandardizedCause" "DepressivedisordersDALYs" = false.
Proof.
  assert (H : In "DepressivedisordersDALYs" (columns (process_burden_data burden_frame)))
    by (simpl; tauto).
  split; [exact H|]. exact (burden_marker_removed burden_frame _ H).
Defined.

(** X12. The burden transform is idempotent: applied to its own result it
    changes nothing. *)
Theorem process_burden_data_idempotent (df : DataFrame) :
  process_burden_data (process_burden_data df) = process_burden_data df.
Proof.
  rewrite !process_burden_data_relabel. unfold relabel. cbn [columns rows].
  f_equal. rewrite map_map. apply map_ext. intros c.
  unfold burden_label at 1. rewrite burden_label_free. reflexivity.
Qed.

(** ** The treatment-gap transform *)

Lemma process_treatment_gap_data_relabel df :
  process_treatment_gap_data df = relabel treatment_gap_name df.
Proof.
  unfold process_treatment_gap_data, Frame.rename, relabel. f_equal.
  apply map_ext. intros c.
  unfold Frame.rename_label, treatment_gap_mapping, treatment_gap_name. cbn [assoc].
  repeat (destruct (_ =? _)%string; [reflexivity|]). reflexivity.
Qed.

Lemma treatment_gap_name_twice c :
  treatment_gap_name (treatment_gap_name c) = treatment_gap_name c.
Proof.
  unfold treatment_gap_name.
  destruct (c =? "Potentiallyadequatetreatmentconditional")%string eqn:H1;
    [reflexivity|].
  destruct (c =? "Othertreatmentsconditional")%string eqn:H2; [reflexivity|].
  destruct (c =? "Untreatedconditional")%string eqn:H3; [reflexivity|].
  cbv iota. rewrite H1, H2, H3. reflexivity.
Qed.

(** X13. The treatment-gap transform is idempotent: none of its three new
    names is one of the names it renames. *)
Theorem process_treatment_gap_data_idempotent (df : DataFrame) :
  process_treatment_gap_data (process_treatment_gap_data df)
  = process_treatment_gap_data df.
Proof.
  rewrite !process_treatment_gap_data_relabel. unfold relabel. cbn [columns rows].
  f_equal. rewrite map_map. apply map_ext. apply treatment_gap_name_twice.
Qed.

(** ** Renaming and filtering *)

Lemma bind_ext {A B : Type} (m : outcome A) (k k' : A -> outcome B) :
  (forall a, k a = k' a) -> bind m k = bind m k'.
Proof. intros H. destruct m; simpl; auto. Qed.

Lemma positions_relabel (f : string -> string) (l : string) (cols : list string) :
  (forall c, In c cols -> (f c =? l)%string = (c =? l)%string) ->
  forall j, Frame.positions l (map f cols) j = Frame.positions l cols j.
Proof.
  induction cols as [|c cols IH]; intros H j; simpl; [reflexivity|].
  rewrite (H c (or_introl eq_refl)), IH; [reflexivity|].
  intros c' Hc'. apply H. right. exact Hc'.
Qed.

Section Relabel.

Variable f : string -> string.
Variable df : DataFrame.

Hypothesis keeps_Code :
  forall c, In c (columns df) -> (f c =? "Code")%string = (c =? "Code")%string.
Hypothesis keeps_Year :
  forall c, In c (columns df) -> (f c =? "Year")%string = (c =? "Year")%string.

Lemma getitem_relabel_Code :
  Frame.getitem (relabel f df) "Code" = Frame.getitem df "Code".
Proof.
  unfold Frame.getitem. cbn [columns rows relabel].
  rewrite (positions_relabel f "Code" _ keeps_Code). reflexivity.
Qed.

Lemma getitem_relabel_Year :
  Frame.getitem (relabel f df) "Year" = Frame.getitem df "Year".
Proof.
  unfold Frame.getitem. cbn [columns rows relabel].
  rewrite (positions_relabel f "Year" _ keeps_Year). reflexivity.
Qed.

Lemma filter_by_region_relabel region :
  filter_by_region (relabel f df) region
  = (d <- filter_by_region df region ;; Returns (relabel f d)).
Proof.
  unfold filter_by_region. destruct (region =? "global")%string; [reflexivity|].
  destruct (assoc region region_codes); [|reflexivity].
  rewrite getitem_relabel_Code.
  destruct (Frame.getitem df "Code"); reflexivity.
Qed.

Lemma filter_by_year_relabel year :
  filter_by_year (relabel f df) year
  = (d <- filter_by_year df year ;; Returns (relabel f d)).
Proof.
  unfold filter_by_year.
  destruct (match year with YInt y => Returns y | YStr s => PyInt.int_of_str s end);
    try reflexivity.
  cbn [bind]. rewrite getitem_relabel_Year.
  destruct (Frame.getitem df "Year"); reflexivity.
Qed.

Lemma filter_by_period_relabel period :
  filter_by_period (relabel f df) period
  = (d <- filter_by_period df period ;; Returns (relabel f d)).
Proof.
  unfold filter_by_period. destruct (period =? "all")%string; [reflexivity|].
  rewrite getitem_relabel_Year.
  destruct (period =? "recent")%string; [|destruct (period =? "decade")%string];
    try reflexivity;
    (destruct (Frame.getitem df "Year") as [col| |]; try reflexivity;
     cbn [bind]; destruct (Frame.ge_scalar col _); reflexivity).
Qed.

End Relabel.

Lemma burden_label_keeps (l c : string) :
  Str.contains burden_marker l = false -> Str.endswith l "DALYs" = false ->
  (burden_label c =? l)%string = (c =? l)%string.
Proof.
  intros Hm He. unfold burden_label.
  destruct (Str.contains burden_marker c) eqn:Hc; [|reflexivity].
  transitivity false; [|symmetry].
  - apply String.eqb_neq. intros E.
    pose proof (endswith_app (Str.title (Str.replace burden_marker "" c)) "DALYs") as H.
    fold (burden_name c) in H. rewrite E, He in H. discriminate H.
  - apply String.eqb_neq. intros ->. rewrite Hm in Hc. discriminate Hc.
Qed.

(** X14. The burden transform does not touch the columns Code and Year, so
    it commutes with the three filters: filtering the renamed frame gives
    the outcome of filtering first and renaming what comes back. *)
Theorem burden_rename_commutes (df : DataFrame)
    (region period : string) (year : year_arg) :
  filter_by_region (process_burden_data df) region
  = (d <- filter_by_region df region ;; Returns (process_burden_data d))
  /\ filter_by_year (process_burden_data df) year
     = (d <- filter_by_year df year ;; Returns (process_burden_data d))
  /\ filter_by_period (process_burden_data df) period
     = (d <- filter_by_period df period ;; Returns (process_burden_data d)).
Proof.
  assert (HC : forall c, In c (columns df) ->
                 (burden_label c =? "Code")%string = (c =? "Code")%string)
    by (intros c _; apply burden_label_keeps; reflexivity).
  assert (HY : forall c, In c (columns df) ->
                 (burden_label c =? "Year")%string = (c =? "Year")%string)
    by (intros c _; apply burden_label_keeps; reflexivity).
  assert (E : forall m : outcome DataFrame,
    (d <- m ;; Returns (process_burden_data d)) = (d <- m ;; Returns (relabel burden_label d)))
    by (intros m; apply bind_ext; intros d; rewrite process_burden_data_relabel; reflexivity).
  rewrite !E, process_burden_data_relabel.
  split; [|split].
  - apply filter_by_region_relabel. exact HC.
  - apply filter_by_year_relabel. exact HY.
  - apply filter_by_period_relabel. exact HY.
Qed.

Lemma treatment_gap_name_keeps (l c : string) :
  treatment_gap_name l = l ->
  l <> "AdequateTreatment" -> l <> "OtherTreatments" -> l <> "Untreated" ->
  (treatment_gap_name c =? l)%string = (c =? l)%string.
Proof.
  intros Hl H1 H2 H3. unfold treatment_gap_name.
  destruct (String.eqb_spec c "Potentiallyadequatetreatmentconditional") as [->|_].
  { transitivity false; [|symmetry]; apply String.eqb_neq.
    - congruence.
    - intros <-. discriminate Hl. }
  destruct (String.eqb_spec c "Othertreatmentsconditional") as [->|_].
  { transitivity false; [|symmetry]; apply String.eqb_neq.
    - congruence.
    - intros <-. discriminate Hl. }
  destruct (String.eqb_spec c "Untreatedconditional") as [->|_].
  { transitivity false; [|symmetry]; apply String.eqb_neq.
    - congruence.
    - intros <-. discriminate Hl. }
  reflexivity.
Qed.

(** X15. The treatment-gap transform does not touch the columns Code and
    Year, so it commutes with the three filters: filtering the renamed frame
    gives the outcome of filtering first and renaming what comes back. *)
Theorem treatment_gap_rename_commutes (df : DataFrame)
    (region period : string) (year : year_arg) :
  filter_by_region (process_treatment_gap_data df) region
  = (d <- filter_by_region df region ;; Returns (process_treatment_gap_data d))
  /\ filter_by_year (process_treatment_gap_data df) year
     = (d <- filter_by_year df year ;; Returns (process_treatment_gap_data d))
  /\ filter_by_period (process_treatment_gap_data df) period
     = (d <- filter_by_period df period ;; Returns (process_treatment_gap_data d)).
Proof.
  assert (HC : forall c, In c (columns df) ->
                 (treatment_gap_name c =? "Code")%string = (c =? "Code")%string)
    by (intros c _; apply treatment_gap_name_keeps; [reflexivity | discriminate ..]).
  assert (HY : forall c, In c (columns df) ->
                 (treatment_gap_name c =? "Year")%string = (c =? "Year")%string)
    by (intros c _; apply treatment_gap_name_keeps; [reflexivity | discriminate ..]).
  assert (E : forall m : outcome DataFrame,
    (d <- m ;; Returns (process_treatment_gap_data d))
    = (d <- m ;; Returns (relabel treatment_gap_name d)))
    by (intros m; apply bind_ext; intros d;
        rewrite process_treatment_gap_data_relabel; reflexivity).
  rewrite !E, process_treatment_gap_data_relabel.
  split; [|split].
  - apply filter_by_region_relabel. exact HC.
  - apply filter_by_year_relabel. exact HY.
  - apply filter_by_period_relabel. exact HY.
Qed.

Lemma process_prevalence_data_relabel df :
  process_prevalence_data df = relabel prevalence_label df.
Proof. apply process_prevalence_data_eq. Qed.

(** X16. When the prevalence transform gives no column the new name Code
    or Year, it commutes with the three filters: filtering the renamed frame
    gives the outcome of filtering first and renaming what comes back. *)
Theorem prevalence_rename_commutes (df : DataFrame)
    (region period : string) (year : year_arg) :
  (forall c, In c (columns df) -> Str.contains "disorderssharepopulation" c = true ->
     Str.title (Str.replace "disorderssharepopulation" "" c) <> "Code"
     /\ Str.title (Str.replace "disorderssharepopulation" "" c) <> "Year") ->
  filter_by_region (process_prevalence_data df) region
  = (d <- filter_by_region df region ;; Returns (process_prevalence_data d))
  /\ filter_by_year (process_prevalence_data df) year
     = (d <- filter_by_year df year ;; Returns (process_prevalence_data d))
  /\ filter_by_period (process_prevalence_data df) period
     = (d <- filter_by_period df period ;; Returns (process_prevalence_data d)).
Proof.
  intros H.
  assert (K : forall l, Str.contains prevalence_marker l = false ->
            (l = "Code" \/ l = "Year") ->
            forall c, In c (columns df) ->
              (prevalence_label c =? l)%string = (c =? l)%string).
  { intros l Hl Hcy c Hc. unfold prevalence_label.
    destruct (Str.contains prevalence_marker c) eqn:Hm; [|reflexivity].
    transitivity false; [|symmetry]; apply String.eqb_neq.
    - destruct (H c Hc Hm) as [HC HY]. unfold prevalence_name.
      destruct Hcy as [-> | ->]; assumption.
    - intros ->. rewrite Hl in Hm. discriminate Hm. }
  assert (E : forall m : outcome DataFrame,
    (d <- m ;; Returns (process_prevalence_data d))
    = (d <- m ;; Returns (relabel prevalence_label d)))
    by (intros m; apply bind_ext; intros d;
        rewrite process_prevalence_data_relabel; reflexivity).
  rewrite !E, process_prevalence_data_relabel.
  split; [|split].
  - apply filter_by_region_relabel. apply K; [reflexivity | left; reflexivity].
  - apply filter_by_year_relabel. apply K; [reflexivity | right; reflexivity].
  - apply filter_by_period_relabel. apply K; [reflexivity | right; reflexivity].
Qed.

(** X16, a concrete run: a prevalence frame filtered by the year 2019. *)
Lemma prevalence_rename_commutes_witness :
  (forall c, In c (columns prevalence_frame) ->
     Str.contains "disorderssharepopulation" c = true ->
     Str.title (Str.replace "disorderssharepopulation" "" c) <> "Code"
     /\ Str.title (Str.replace "disorderssharepopulation" "" c) <> "Year")
  /\ filter_by_year (process_prevalence_data prevalence_frame) (YInt 2019)
     = (d <- filter_by_year prevalence_frame (YInt 2019) ;;
        Returns (process_prevalence_data d)).
Proof.
  assert (H : forall c, In c (columns prevalence_frame) ->
     Str.contains "disorderssharepopulation" c = true ->
     Str.title (Str.replace "disorderssharepopulation" "" c) <> "Code"
     /\ Str.title (Str.replace "disorderssharepopulation" "" c) <> "Year").
  { intros c Hc Hm. simpl in Hc.
    repeat (destruct Hc as [<- | Hc];
            [vm_compute in Hm; try discriminate Hm;
             split; intros E; vm_compute in E; discriminate E|]).
    contradiction. }
  split; [exact H|].
  apply (proj1 (proj2 (prevalence_rename_commutes prevalence_frame "global" "all"
                         (YInt 2019) H))).
Defined.

(** ** What the loader returns *)

Lemma transform_of_shape dataset_id df :
  rows (transform_of dataset_id df) = rows df
  /\ length (columns (transform_of dataset_id df)) = length (columns df).
Proof.
  unfold transform_of.
  destruct (dataset_id =? "mental-illnesses-prevalence")%string.
  { rewrite process_prevalence_data_relabel. cbn [rows columns relabel].
    rewrite length_map. auto. }
  destruct (dataset_id =? "burden-disease-mental-illness")%string.
  { rewrite process_burden_data_relabel. cbn [rows columns relabel].
    rewrite length_map. auto. }
  destruct (dataset_id =? "anxiety-treatment-gap")%string.
  { rewrite process_treatment_gap_data_relabel. cbn [rows columns relabel].
    rewrite length_map. auto. }
  auto.
Qed.

(** X17. Whenever the loader returns a frame, the identifier is a key of
    the mapping, its file exists, and the CSV reader returned a frame for
    that file: the loader's frame has the rows of the reader's and as many
    columns, and is the reader's frame itself unless the identifier is one
    of the three with a rename. *)
Theorem load_dataset_returns (w : World) (dataset_id : string) (df' : DataFrame) :
  load_dataset w dataset_id = Returns df' ->
  exists name df,
    assoc dataset_id dataset_mapping = Some name
    /\ path_exists w (DATA_DIR w ++ "/" ++ name) = true
    /\ read_csv w (DATA_DIR w ++ "/" ++ name) = Returns df
    /\ rows df' = rows df
    /\ length (columns df') = length (columns df)
    /\ (dataset_id <> "mental-illnesses-prevalence" ->
        dataset_id <> "burden-disease-mental-illness" ->
        dataset_id <> "anxiety-treatment-gap" -> df' = df).
Proof.
  intros H.
  destruct (assoc dataset_id dataset_mapping) as [name|] eqn:Ha;
    [|unfold load_dataset in H; rewrite Ha in H; discriminate H].
  destruct (path_exists w (DATA_DIR w ++ "/" ++ name)) eqn:He;
    [|unfold load_dataset in H; rewrite Ha in H; cbv zeta in H;
      rewrite He in H; discriminate H].
  rewrite (load_dataset_found w _ _ Ha He) in H.
  destruct (read_csv w (DATA_DIR w ++ "/" ++ name)) as [df| |] eqn:Hr;
    try discriminate H.
  cbn [bind] in H. injection H as <-.
  exists name, df.
  split; [reflexivity|]. split; [exact He|]. split; [exact Hr|].
  split; [apply transform_of_shape|]. split; [apply transform_of_shape|].
  intros H1 H2 H3. apply String.eqb_neq in H1, H2, H3.
  unfold transform_of. rewrite H1, H2, H3. reflexivity.
Qed.

(** X17, a concrete run: the coverage dataset in the sample world comes
    back as the reader gave it. *)
Lemma load_dataset_returns_witness :
  load_dataset sample_world "mental-illnesses-coverage" = Returns sample_frame
  /\ exists name df,
       assoc "mental-illnesses-coverage" dataset_mapping = Some name
       /\ path_exists sample_world (DATA_DIR sample_world ++ "/" ++ name) = true
       /\ read_csv sample_world (DATA_DIR sample_world ++ "/" ++ name) = Returns df
       /\ rows sample_frame = rows df
       /\ length (columns sample_frame) = length (columns df)
       /\ ("mental-illnesses-coverage" <> "mental-illnesses-prevalence" ->
           "mental-illnesses-coverage" <> "burden-disease-mental-illness" ->
           "mental-illnesses-coverage" <> "anxiety-treatment-gap" -> sample_frame = df).
Proof.
  split; [reflexivity|].
  apply (load_dataset_returns sample_world "mental-illnesses-coverage" sample_frame).
  reflexivity.
Defined.

(** ** Year texts with white space around the number *)

Section PaddedYear.

Import PyInt Literal.

Lemma lstrip_pad (pad s : string) :
  all_space pad = true -> lstrip (pad ++ s) = lstrip s.
Proof.
  induction pad as [|c pad IH]; simpl; [reflexivity|].
  intros H. apply andb_true_iff in H. destruct H as [Hc Hp].
  rewrite Hc. apply IH. exact Hp.
Qed.

Lemma scan_printed_pad (d : uint) (pad : string) :
  all_space pad = true ->
  scan_digits false (NilEmpty.string_of_uint d ++ pad) = Some (d, pad).
Proof.
  intros Hp. induction d; simpl; rewrite ?IHd; try reflexivity.
  apply scan_spaces. apply all_space_spaces. exact Hp.
Qed.

Lemma unsigned_of_printed_pad negative d pad :
  d <> Nil -> all_space pad = true ->
  unsigned_of_str negative (NilZero.string_of_uint d ++ pad) =
  Returns (if negative then - Z.of_uint d else Z.of_uint d).
Proof.
  intros Hd Hp. unfold unsigned_of_str.
  destruct d; [contradiction | ..]; simpl; rewrite scan_printed_pad, Hp;
    try reflexivity; exact Hp.
Qed.

Lemma from_ascii_padded (z : Z) (before after : string) :
  all_space before = true -> all_space after = true ->
  from_ascii (before ++ str_of_int z ++ after) = Returns z.
Proof.
  intros Hb Ha. unfold from_ascii. rewrite (lstrip_pad _ _ Hb).
  destruct z as [|p|p]; unfold str_of_int; simpl.
  - unfold unsigned_of_str. simpl.
    rewrite (scan_spaces after) by (apply all_space_spaces; exact Ha).
    rewrite Ha. reflexivity.
  - pose proof (DecimalPos.Unsigned.to_uint_nonnil p) as Hn.
    pose proof (unsigned_of_printed_pad false _ after Hn Ha) as H.
    replace (lstrip (NilZero.string_of_uint (Pos.to_uint p) ++ after))
      with (NilZero.string_of_uint (Pos.to_uint p) ++ after)
      by (destruct (Pos.to_uint p); try contradiction; reflexivity).
    replace (signed_of_str (NilZero.string_of_uint (Pos.to_uint p) ++ after))
      with (unsigned_of_str false (NilZero.string_of_uint (Pos.to_uint p) ++ after))
      by (destruct (Pos.to_uint p); try contradiction; reflexivity).
    rewrite H. unfold Z.of_uint. rewrite DecimalPos.Unsigned.of_to. reflexivity.
  - pose proof (DecimalPos.Unsigned.to_uint_nonnil p) as Hn.
    rewrite (unsigned_of_printed_pad true _ after Hn Ha).
    unfold Z.of_uint. rewrite DecimalPos.Unsigned.of_to. reflexivity.
Qed.

Lemma int_of_str_padded (z : Z) (before after : string) :
  all_space before = true -> all_space after = true ->
  int_of_str (before ++ str_of_int z ++ after) = Returns z.
Proof.
  intros Hb Ha. unfold int_of_str. rewrite to_ascii_plain.
  - apply from_ascii_padded; assumption.
  - apply plain_app; [apply plain_spaces; exact Hb|].
    apply plain_app; [apply plain_str_of_int | apply plain_spaces; exact Ha].
Qed.

End PaddedYear.

(** X18. White space around the number does not matter to the year
    filter: the decimal text of an integer with tabs, spaces or line breaks
    before and after it filters as the integer does, for every frame. *)
Theorem filter_by_year_padded (df : DataFrame) (y : Z) (before after : string) :
  PyInt.all_space before = true -> PyInt.all_space after = true ->
  filter_by_year df (YStr (before ++ PyInt.str_of_int y ++ after))
  = filter_by_year df (YInt y).
Proof.
  intros Hb Ha. unfold filter_by_year.
  rewrite (int_of_str_padded y before after Hb Ha). reflexivity.
Qed.

(** X18, a concrete run: the year " 2020" followed by a line break. *)
Lemma filter_by_year_padded_witness :
  filter_by_year sample_frame (YStr (" " ++ "2020" ++ String "010" ""))
  = Returns {| columns := sample_columns; rows := [france_2020; chile_2020] |}.
Proof.
  refine (eq_trans (filter_by_year_padded sample_frame 2020 " " (String "010" "")
                      eq_refl eq_refl) _).
  reflexivity.
Defined.
